(** * ClarityNLP: decoding of flattened FHIR resources

    A shallow embedding of [nlp/data_access/cql_result_parser.py]: the
    datetime normalisation pass, list-length inference, the seven
    resource decoders and the dispatcher, followed by the properties
    established about them.

    Conventions of the embedding.
    - A Python [dict] with string keys is a [gmap string value]; the
      functions below never depend on the insertion order of a dict
      beyond which of several failing entries raises first.
    - Python [str] is [string] (a sequence of 8-bit characters); the
      regular-expression class [\d] is the ASCII digits.
    - Python [int] is [Z]; JSON numbers with a fractional part have no
      counterpart here.
    - A function that mutates the dict it is given and may raise is a
      state transformer that returns the dict as left behind together
      with either the exception or the result.
    - The module-level flag [_TRACE] keeps its initial value [False], so
      the [_dump_dict] calls print nothing and are left out. *)

From Stdlib Require Import ZArith String Ascii List Lia.
From stdpp Require Import base tactics option list gmap fin_maps strings pretty.

Set Warnings "-register-all".

(** ** Python values and exceptions *)

(** [datetime.datetime]: the fields the constructor is given; [tzinfo]
    is the UTC offset of the attached [timezone], in minutes. *)
Record datetime := mk_datetime {
  year : Z; month : Z; day : Z;
  hour : Z; minute : Z; second : Z; microsecond : Z;
  tzinfo : option Z
}.

Inductive value :=
  | VNone
  | VBool (b : bool)
  | VNum (z : Z)
  | VStr (s : string)
  | VDateTime (d : datetime)
  | VList (l : list value)
  | VDict (d : gmap string value).

(** The exceptions the module can raise. [PatternOutsideModel] is not a
    Python exception: it marks a search pattern that uses regular
    expression syntax this development does not interpret. *)
Inductive exn :=
  | KeyError (key : string)
  | TypeError
  | NameError (name : string)
  | AttributeError (attr : string)
  | AssertionError
  | ValueError
  | OverflowError
  | PatternOutsideModel (pattern : string).

Definition res_bind {A B} (r : exn + A) (f : A → exn + B) : exn + B :=
  match r with inl e => inl e | inr a => f a end.

Definition res_map {A B} (f : A → B) (r : exn + A) : exn + B :=
  match r with inl e => inl e | inr a => inr (f a) end.

(** ** Module constants *)

Definition _MODULE_NAME : string := "cql_result_parser.py".
Definition _KEY_DATE_TIME : string := "date_time".
Definition _KEY_END : string := "end".
Definition _KEY_END_DATE_TIME : string := "end_date_time".
Definition _KEY_START : string := "start".
Definition _STR_RESOURCE_TYPE : string := "resourceType".

(** ** Characters and digit strings *)

Definition is_digit (c : ascii) : bool :=
  let n := N_of_ascii c in ((48 <=? n) && (n <=? 57))%N.

Definition digit_val (c : ascii) : Z := Z.of_N (N_of_ascii c) - 48.

(** [int(s)] for a string of ASCII digits, most significant first. *)
Fixpoint int_of_digits (acc : Z) (s : string) : Z :=
  match s with
  | EmptyString => acc
  | String c s' => int_of_digits (10 * acc + digit_val c) s'
  end.

(** The longest run of digits at the head of [s], and what follows. *)
Fixpoint take_digits (s : string) : string * string :=
  match s with
  | EmptyString => (EmptyString, EmptyString)
  | String c s' =>
      if is_digit c then
        let '(ds, rest) := take_digits s' in (String c ds, rest)
      else (EmptyString, s)
  end.

Fixpoint string_forall (p : ascii → bool) (s : string) : bool :=
  match s with
  | EmptyString => true
  | String c s' => p c && string_forall p s'
  end.

Definition two_digits (a b : ascii) : Z := 10 * digit_val a + digit_val b.

(** ** The time-of-day collaborator *)

(** Modelled from the spec: the [TimeValue] record of the module
    [algorithms.finder.time_finder], which is not among the sources. The
    fields are those [_convert_datetimes] reads. [fractional_seconds]
    holds the integer that [int(...)] makes of the collaborator's field;
    the three clock fields are never null. *)
Record TimeValue := mk_TimeValue {
  hours : Z;
  minutes : Z;
  seconds : Z;
  fractional_seconds : option Z;
  gmt_delta_sign : option string;
  gmt_delta_hours : option Z;
  gmt_delta_minutes : option Z
}.

(** ** [_regex_datetime] *)

(** Characters of the class [[-+\.Z\d:]]. *)
Definition is_time_tail_char (c : ascii) : bool :=
  is_digit c ||
  match c with
  | "-"%char | "+"%char | "."%char | "Z"%char | ":"%char => true
  | _ => false
  end.

(** [\d\d:\d\d:\d\d[-+\.Z\d:]*] against the whole of [t]. *)
Definition is_time_text (t : string) : bool :=
  match t with
  | String h1 (String h2 (String ":" (String m1 (String m2
      (String ":" (String s1 (String s2 tail))))))) =>
      is_digit h1 && is_digit h2 && is_digit m1 && is_digit m2 &&
      is_digit s1 && is_digit s2 && string_forall is_time_tail_char tail
  | _ => false
  end.

(** [_regex_datetime.match(v)]: [None] when there is no match, else the
    integers of the groups [year], [month], [day] and the group [time]. *)
Definition _regex_datetime (v : string) : option (Z * Z * Z * option string) :=
  match v with
  | String y1 (String y2 (String y3 (String y4 (String "-" (String m1
      (String m2 (String "-" (String d1 (String d2 rest))))))))) =>
      if is_digit y1 && is_digit y2 && is_digit y3 && is_digit y4 &&
         is_digit m1 && is_digit m2 && is_digit d1 && is_digit d2 then
        let y := int_of_digits 0
                   (String y1 (String y2 (String y3 (String y4 EmptyString)))) in
        let mo := two_digits m1 m2 in
        let d := two_digits d1 d2 in
        match rest with
        | EmptyString => Some (y, mo, d, None)
        | String "T" t =>
            if is_time_text t then Some (y, mo, d, Some t) else None
        | _ => None
        end
      else None
  | _ => None
  end.

(** ** [datetime], [timedelta] and [timezone] constructors *)

Definition is_leap (y : Z) : bool :=
  ((y mod 4 =? 0) && (negb (y mod 100 =? 0) || (y mod 400 =? 0)))%Z.

Definition days_in_month (y m : Z) : Z :=
  if (m =? 2)%Z then (if is_leap y then 29 else 28)
  else if ((m =? 4) || (m =? 6) || (m =? 9) || (m =? 11))%Z then 30
  else 31.

Definition in_range (lo x hi : Z) : bool := ((lo <=? x) && (x <=? hi))%Z.

(** [datetime(year, month, day, hour, minute, second, microsecond,
    tzinfo)]: [ValueError] when a field is out of range. *)
Definition datetime_new (y mo d hh mi ss us : Z) (tz : option Z)
  : exn + datetime :=
  if in_range 1 y 9999 && in_range 1 mo 12 &&
     in_range 1 d (days_in_month y mo) &&
     in_range 0 hh 23 && in_range 0 mi 59 && in_range 0 ss 59 &&
     in_range 0 us 999999
  then inr (mk_datetime y mo d hh mi ss us tz)
  else inl ValueError.

(** [timedelta(hours=h, minutes=m)], in minutes: [OverflowError] when
    the number of days leaves [-999999999, 999999999]. *)
Definition timedelta (h m : Z) : exn + Z :=
  let total := (h * 60 + m)%Z in
  if in_range (-999999999) (total / 1440) 999999999 then inr total
  else inl OverflowError.

(** [timezone(offset=offset)]: the offset must lie strictly between
    minus and plus 24 hours. *)
Definition timezone (offset : Z) : exn + Z :=
  if ((-1440 <? offset) && (offset <? 1440))%Z then inr offset
  else inl ValueError.

(** ** [_convert_datetimes] *)

(** The first exception of a list of outcomes, in order. *)
Fixpoint first_error {A} (rs : list (exn + A)) : option exn :=
  match rs with
  | [] => None
  | inl e :: _ => Some e
  | inr _ :: rs' => first_error rs'
  end.

Section convert.
(** [time_finder.run] followed by [json.loads] and the construction of
    a [TimeValue] from each entry: the decompositions the collaborator
    reports for a time string. *)
Variable time_finder_run : string → list TimeValue.

(** The body of the loop for one string value [v]. *)
Definition convert_string (v : string) : exn + value :=
  match _regex_datetime v with
  | None => inr (VStr v)
  | Some (y, mo, d, None) =>
      res_map VDateTime (datetime_new y mo d 0 0 0 0 None)
  | Some (y, mo, d, Some time_str) =>
      match time_finder_run time_str with
      | [time_obj] =>
          let us :=
            match fractional_seconds time_obj with
            | Some frac_seconds => (frac_seconds mod 999999)%Z
            | None => 0%Z
            end in
          let mult :=
            match gmt_delta_sign time_obj with
            | Some sign => if String.eqb "-" sign then (-1)%Z else 1%Z
            | None => 1%Z
            end in
          let delta_hours :=
            match gmt_delta_hours time_obj with
            | Some h => (mult * h)%Z
            | None => 0%Z
            end in
          let delta_min :=
            match gmt_delta_minutes time_obj with
            | Some m => m
            | None => 0%Z
            end in
          res_bind (timedelta delta_hours delta_min) (λ offset,
          res_bind (timezone offset) (λ tz,
          res_map VDateTime
            (datetime_new y mo d (hours time_obj) (minutes time_obj)
               (seconds time_obj) us (Some tz))))
      | _ => inl AssertionError
      end
  end.

(** The body of the loop for one entry: only [str] values are looked at. *)
Definition convert_value (v : value) : exn + value :=
  match v with
  | VStr s => convert_string s
  | _ => inr v
  end.

Definition converted (v : value) : value :=
  match convert_value v with inr v' => v' | inl _ => v end.

(** [_convert_datetimes(flattened_obj)]: the dict with every datetime
    string replaced, unless converting some entry raises. *)
Definition _convert_datetimes (flattened_obj : gmap string value)
  : exn + gmap string value :=
  match first_error ((λ kv, convert_value kv.2) <$> map_to_list flattened_obj) with
  | Some e => inl e
  | None => inr (converted <$> flattened_obj)
  end.
End convert.

(** ** The search pattern of [_set_list_length] *)

(** [_set_list_length] splices its prefix, unescaped, into the regular
    expression [\A<prefix>_(?P<num>\d+)_?]. The prefixes the module
    passes consist of characters that stand for themselves and of the
    counted repetition [{n}] of the character before it (which the
    unformatted templates such as [reasonNotGiven_{0}_coding] contain).
    That fragment is interpreted here; any other use of a regular
    expression metacharacter is outside the model. *)

Definition is_meta (c : ascii) : bool :=
  match c with
  | "."%char | "^"%char | "$"%char | "*"%char | "+"%char | "?"%char
  | "{"%char | "}"%char | "["%char | "]"%char | "\"%char | "|"%char
  | "("%char | ")"%char => true
  | _ => false
  end.

(** A character that matches itself and nothing else. *)
Definition is_plain (c : ascii) : bool :=
  (N_of_ascii c <? 128)%N && negb (is_meta c).

(** [Rep c n] is [c{n}]; a plain character alone is [Rep c 1]. *)
Inductive atom := Rep (c : ascii) (n : N).

Definition MAXREPEAT : N := 4294967295.

Definition flush (pending : option ascii) : list atom :=
  match pending with Some c => [Rep c 1] | None => [] end.

(** [parse_prefix s pending] reads the prefix left to right; [pending]
    is the plain character just read, which a following [{n}] would
    repeat. [parse_count s c n] reads the digits of a repetition count
    for [c] up to the closing brace. *)
Fixpoint parse_prefix (s : string) (pending : option ascii) : option (list atom) :=
  match s with
  | EmptyString => Some (flush pending)
  | String c s' =>
      if Ascii.eqb c "{" then
        match pending with
        | Some p => parse_count s' p None
        | None => None
        end
      else if is_plain c then
        option_map (app (flush pending)) (parse_prefix s' (Some c))
      else None
  end
with parse_count (s : string) (p : ascii) (n : option N) : option (list atom) :=
  match s with
  | EmptyString => None
  | String c s' =>
      if is_digit c then
        parse_count s' p
          (Some (10 * default 0 n + (N_of_ascii c - 48))%N)
      else if Ascii.eqb c "}" then
        match n with
        | Some k =>
            if (k <? MAXREPEAT)%N
            then option_map (cons (Rep p k)) (parse_prefix s' None)
            else None
        | None => None
        end
      else None
  end.

Definition search_pattern (prefix_str : string) : option (list atom) :=
  parse_prefix prefix_str None.

(** Remove [n] copies of [c] from the head of [s]. *)
Fixpoint strip_rep (c : ascii) (n : nat) (s : string) : option string :=
  match n with
  | O => Some s
  | S n' =>
      match s with
      | String c' s' => if Ascii.eqb c c' then strip_rep c n' s' else None
      | EmptyString => None
      end
  end.

Fixpoint match_atoms (pat : list atom) (s : string) : option string :=
  match pat with
  | [] => Some s
  | Rep c n :: pat' =>
      match strip_rep c (N.to_nat n) s with
      | Some s' => match_atoms pat' s'
      | None => None
      end
  end.

(** [re.match(str_search, k)] followed by [int(match.group('num'))]:
    [None] when the key does not match. *)
Definition re_match_num (pat : list atom) (k : string) : option Z :=
  match match_atoms pat k with
  | Some (String c rest) =>
      if Ascii.eqb c "_" then
        match take_digits rest with
        | (EmptyString, _) => None
        | (ds, _) => Some (int_of_digits 0 ds)
        end
      else None
  | _ => None
  end.

(** ** Dict-mutating computations *)

Definition M (A : Type) : Type :=
  gmap string value → gmap string value * (exn + A).

Definition ret {A} (a : A) : M A := λ obj, (obj, inr a).

Definition raise {A} (e : exn) : M A := λ obj, (obj, inl e).

Definition bind {A B} (m : M A) (f : A → M B) : M B := λ obj,
  match m obj with
  | (obj', inr a) => f a obj'
  | (obj', inl e) => (obj', inl e)
  end.

Definition lift {A} (r : exn + A) : M A := λ obj, (obj, r).

Notation "x <- m ;; k" := (bind m (λ x, k))
  (at level 100, m at next level, right associativity).
Notation "m ;; k" := (bind m (λ _, k))
  (at level 100, right associativity).

(** [k in obj] *)
Definition dict_has (k : string) : M bool := λ obj,
  (obj, inr (bool_decide (is_Some (obj !! k)))).

(** [obj[k]] *)
Definition dict_get (k : string) : M value := λ obj,
  (obj, match obj !! k with Some v => inr v | None => inl (KeyError k) end).

(** [obj[k] = v] *)
Definition dict_set (k : string) (v : value) : M unit := λ obj,
  (<[k := v]> obj, inr tt).

Definition when (b : bool) (m : M unit) : M unit := if b then m else ret tt.

Fixpoint for_ {A} (xs : list A) (body : A → M unit) : M unit :=
  match xs with
  | [] => ret tt
  | x :: xs' => body x ;; for_ xs' body
  end.

(** [range(count)] *)
Definition range (count : Z) : list nat := seq 0 (Z.to_nat count).

(** ** Membership and subscription on a value *)

Fixpoint is_substring (needle hay : string) : bool :=
  String.prefix needle hay ||
  match hay with
  | EmptyString => false
  | String _ hay' => is_substring needle hay'
  end.

Definition is_str (key : string) (v : value) : bool :=
  match v with VStr s => String.eqb key s | _ => false end.

(** [key in v] for a string [key]: membership for a dict or a list, the
    substring test for a string, [TypeError] otherwise. *)
Definition py_contains (key : string) (v : value) : exn + bool :=
  match v with
  | VDict d => inr (bool_decide (is_Some (d !! key)))
  | VList l => inr (existsb (is_str key) l)
  | VStr s => inr (is_substring key s)
  | _ => inl TypeError
  end.

(** [v[key]] for a string [key]. *)
Definition py_getitem (v : value) (key : string) : exn + value :=
  match v with
  | VDict d =>
      match d !! key with Some x => inr x | None => inl (KeyError key) end
  | _ => inl TypeError
  end.

(** ** [_set_list_length] *)

(** One iteration of the loop over the keys. *)
Definition scan_step (pat : list atom) (max_num : option Z) (k : string)
  : option Z :=
  match re_match_num pat k with
  | Some num =>
      let max_num := match max_num with None => 0%Z | Some m => m end in
      if (num >? max_num)%Z then Some num else Some max_num
  | None => max_num
  end.

Definition scan (pat : list atom) (obj : gmap string value) : option Z :=
  foldl (scan_step pat) None (map_to_list obj).*1.

Definition _set_list_length (prefix_str : string) : M Z := λ obj,
  match search_pattern prefix_str with
  | None => (obj, inl (PatternOutsideModel prefix_str))
  | Some str_search =>
      match scan str_search obj with
      | None => (obj, inr 0%Z)
      | Some max_num =>
          let length := (max_num + 1)%Z in
          (<["len_" +:+ prefix_str := VNum length]> obj, inr length)
      end
  end.

(** ['{0}'.format(i)] for an index of a [range] *)
Definition fmt (i : nat) : string := pretty i.

(** ** [_base_init] and [_contained_med_resource_init] *)

Definition _base_init : M unit :=
  identifier_count <- _set_list_length "identifier" ;;
  for_ (range identifier_count) (λ i,
    _set_list_length ("identifier_" +:+ fmt i +:+ "_type_coding") ;;
    ret tt) ;;
  for_ ["extension"; "modifierExtension"] (λ field,
    count <- _set_list_length field ;;
    for_ (range count) (λ i,
      let p := field +:+ "_" +:+ fmt i in
      _set_list_length (p +:+ "_valueCodeableConcept_coding") ;;
      _set_list_length (p +:+ "_valueTiming_event") ;;
      _set_list_length (p +:+ "_valueTiming_code_coding") ;;
      _set_list_length (p +:+ "_valueAddress_line") ;;
      for_ ["family"; "given"; "prefix"; "suffix"] (λ hn_field,
        _set_list_length (p +:+ "_valueHumanName_" +:+ hn_field) ;;
        ret tt) ;;
      _set_list_length (p +:+ "_valueSignature_type_coding") ;;
      _set_list_length (p +:+ "_extension") ;;
      ret tt)).

Definition _contained_med_resource_init : M unit :=
  contained_count <- _set_list_length "contained" ;;
  for_ (range contained_count) (λ i,
    for_ ["code_coding"; "product_form"; "product_ingredient";
          "product_batch"; "package_container_coding"; "package_content"]
      (λ field,
        _set_list_length ("contained_" +:+ fmt i +:+ "_" +:+ field) ;;
        ret tt)).

(** ** The resource decoders *)

(** The name [KEY_END_DATE_TIME], which two decoders use as a subscript.
    Nothing binds it: it is no local of either function, the module
    global is spelt [_KEY_END_DATE_TIME], and it is no builtin. Looking
    it up raises [NameError]. *)
Definition KEY_END_DATE_TIME : exn + string :=
  inl (NameError "KEY_END_DATE_TIME").

(** The part of [_decode_flattened_observation] from the call of [_base_init]
    on. *)
Definition observation_lists : M unit :=
  _base_init ;;
  _set_list_length "category_coding" ;;
  _set_list_length "code_coding" ;;
  _set_list_length "performer" ;;
  _set_list_length "valueCodeableConcept_coding" ;;
  _set_list_length "dataAbsentReason_coding" ;;
  _set_list_length "interpretation_coding" ;;
  _set_list_length "bodySite_coding" ;;
  _set_list_length "method_coding" ;;
  rr_count <- _set_list_length "referenceRange" ;;
  for_ (range rr_count) (λ i,
    _set_list_length ("referenceRange_" +:+ fmt i +:+ "_meaning_coding") ;;
    ret tt) ;;
  component_count <- _set_list_length "component" ;;
  for_ (range component_count) (λ i,
    for_ ["code_coding"; "valueCodeableConcept_coding";
          "dataAbsentReason_coding"; "referenceRange"] (λ field,
      _set_list_length ("component_" +:+ fmt i +:+ "_" +:+ field) ;;
      ret tt)).

Definition _decode_flattened_observation : M unit :=
  let KEY_EDT := "effectiveDateTime" in
  let KEY_EP := "effectivePeriod" in
  has_edt <- dict_has KEY_EDT ;;
  when has_edt (
    edt <- dict_get KEY_EDT ;;
    dict_set _KEY_DATE_TIME edt) ;;
  has_ep <- dict_has KEY_EP ;;
  when has_ep (
    ep <- dict_get KEY_EP ;;
    has_start <- lift (py_contains _KEY_START ep) ;;
    when has_start (
      ep <- dict_get KEY_EP ;;
      start <- lift (py_getitem ep _KEY_START) ;;
      dict_set _KEY_DATE_TIME start) ;;
    ep <- dict_get KEY_EP ;;
    has_end <- lift (py_contains _KEY_END ep) ;;
    when has_end (
      ep <- dict_get KEY_EP ;;
      end_ <- lift (py_getitem ep _KEY_END) ;;
      key <- lift KEY_END_DATE_TIME ;;
      dict_set key end_)) ;;
  observation_lists.

(** The part of [_decode_flattened_medication_administration] from the call of [_base_init]
    on. *)
Definition medication_administration_lists : M unit :=
  _base_init ;;
  _contained_med_resource_init ;;
  reason_count <- _set_list_length "reasonNotGiven" ;;
  for_ (range reason_count) (λ i,
    let key := "reasonNotGiven_{0}_coding" in
    _set_list_length key ;;
    ret tt) ;;
  reason_count <- _set_list_length "reasonGiven" ;;
  for_ (range reason_count) (λ i,
    let key := "reasonGiven_{0}_coding" in
    _set_list_length key ;;
    ret tt) ;;
  _set_list_length "medicationCodeableConcept_coding" ;;
  _set_list_length "device" ;;
  _set_list_length "dosage_siteCodeableConcept_coding" ;;
  _set_list_length "dosage_route_coding" ;;
  _set_list_length "dosage_method_coding" ;;
  ret tt.

Definition _decode_flattened_medication_administration : M unit :=
  let KEY_EDT := "effectiveTimeDateTime" in
  let KEY_EP := "effectiveTimePeriod" in
  has_edt <- dict_has KEY_EDT ;;
  when has_edt (
    edt <- dict_get KEY_EDT ;;
    dict_set _KEY_DATE_TIME edt) ;;
  has_ep <- dict_has KEY_EP ;;
  when has_ep (
    ep <- dict_get KEY_EP ;;
    has_start <- lift (py_contains _KEY_START ep) ;;
    when has_start (
      ep <- dict_get KEY_EP ;;
      start <- lift (py_getitem ep _KEY_START) ;;
      dict_set _KEY_DATE_TIME start) ;;
    ep <- dict_get KEY_EP ;;
    has_end <- lift (py_contains _KEY_END ep) ;;
    when has_end (
      ep <- dict_get KEY_EP ;;
      end_ <- lift (py_getitem ep _KEY_END) ;;
      key <- lift KEY_END_DATE_TIME ;;
      dict_set key end_)) ;;
  medication_administration_lists.

(** The part of [_decode_flattened_medication_order] from the call of [_base_init]
    on. *)
Definition medication_order_lists : M unit :=
  _base_init ;;
  _contained_med_resource_init ;;
  _set_list_length "reasonEnded_coding" ;;
  _set_list_length "reasonCodeableConcept_coding" ;;
  _set_list_length "medicationCodeableConcept_coding" ;;
  inst_count <- _set_list_length "dosageInstruction" ;;
  for_ (range inst_count) (λ i,
    for_ ["additionalInstructions_coding"; "timing_code_coding";
          "asNeededCodeableConcept_coding"; "siteCodeableConcept_coding";
          "route_coding"; "method_coding"] (λ field,
      _set_list_length ("dosageInstruction_" +:+ fmt i +:+ "_" +:+ field) ;;
      ret tt)) ;;
  _set_list_length "dispenseRequest_medicationCodeableConcept_coding" ;;
  _set_list_length "substitution_type_coding" ;;
  _set_list_length "substitution_reason_coding" ;;
  ret tt.

Definition _decode_flattened_medication_order : M unit :=
  let KEY_DW := "dateWritten" in
  has_dw <- dict_has KEY_DW ;;
  when has_dw (
    dw <- dict_get KEY_DW ;;
    dict_set _KEY_DATE_TIME dw) ;;
  let KEY_DE := "dateEnded" in
  has_de <- dict_has KEY_DE ;;
  when has_de (
    de <- dict_get KEY_DE ;;
    dict_set _KEY_END_DATE_TIME de) ;;
  medication_order_lists.

(** The part of [_decode_flattened_medication_statement] from the call of [_base_init]
    on. *)
Definition medication_statement_lists : M unit :=
  _base_init ;;
  _contained_med_resource_init ;;
  reason_count <- _set_list_length "reasonNotTaken" ;;
  for_ (range reason_count) (λ i,
    let key := "reason_{0}_coding" in
    _set_list_length key ;;
    ret tt) ;;
  _set_list_length "reasonForUseCodeableConcept_coding" ;;
  _set_list_length "supportingInformation" ;;
  _set_list_length "medicationCodeableConcept_coding" ;;
  dosage_count <- _set_list_length "dosage" ;;
  for_ (range dosage_count) (λ i,
    for_ ["asNeededCodeableConcept_coding"; "siteCodeableConcept_coding";
          "route_coding"; "method_coding"] (λ field,
      _set_list_length ("dosage_" +:+ fmt i +:+ "_" +:+ field) ;;
      ret tt)).

Definition _decode_flattened_medication_statement : M unit :=
  let KEY_DA := "dateAsserted" in
  has_da <- dict_has KEY_DA ;;
  when has_da (
    da <- dict_get KEY_DA ;;
    dict_set _KEY_DATE_TIME da) ;;
  medication_statement_lists.

(** The part of [_decode_flattened_condition] from the call of [_base_init]
    on. *)
Definition condition_lists : M unit :=
  _base_init ;;
  _set_list_length "code_coding" ;;
  _set_list_length "category_coding" ;;
  _set_list_length "severity_coding" ;;
  _set_list_length "stage_assessment" ;;
  evidence_len <- _set_list_length "evidence" ;;
  for_ (range evidence_len) (λ i,
    for_ ["code_coding"; "detail"] (λ field,
      _set_list_length ("evidence_" +:+ fmt i +:+ "_" +:+ field) ;;
      ret tt)) ;;
  site_count <- _set_list_length "bodySite" ;;
  for_ (range site_count) (λ i,
    _set_list_length ("bodySite_" +:+ fmt i +:+ "_coding") ;;
    ret tt).

Definition _decode_flattened_condition : M unit :=
  let KEY_ODT := "onsetDateTime" in
  let KEY_OP := "onsetPeriod" in
  let KEY_ADT := "abatementDateTime" in
  let KEY_AP := "abatementPeriod" in
  has_odt <- dict_has KEY_ODT ;;
  when has_odt (
    odt <- dict_get KEY_ODT ;;
    dict_set _KEY_DATE_TIME odt) ;;
  has_adt <- dict_has KEY_ADT ;;
  when has_adt (
    adt <- dict_get KEY_ADT ;;
    dict_set _KEY_END_DATE_TIME adt) ;;
  has_op <- dict_has KEY_OP ;;
  when has_op (
    op <- dict_get KEY_OP ;;
    start <- lift (py_getitem op _KEY_START) ;;
    dict_set _KEY_DATE_TIME start) ;;
  has_ap <- dict_has KEY_AP ;;
  when has_ap (
    ap <- dict_get KEY_AP ;;
    end_ <- lift (py_getitem ap _KEY_END) ;;
    dict_set _KEY_END_DATE_TIME end_) ;;
  condition_lists.

(** The part of [_decode_flattened_procedure] from the call of [_base_init]
    on. *)
Definition procedure_lists : M unit :=
  _base_init ;;
  _contained_med_resource_init ;;
  _set_list_length "category_coding" ;;
  _set_list_length "code_coding" ;;
  _set_list_length "reasonNotPerformed_coding" ;;
  site_count <- _set_list_length "bodySite" ;;
  for_ (range site_count) (λ i,
    _set_list_length ("bodySite_" +:+ fmt i +:+ "_coding") ;;
    ret tt) ;;
  _set_list_length "reasonCodeableConcept_coding" ;;
  performer_count <- _set_list_length "performer" ;;
  for_ (range performer_count) (λ i,
    _set_list_length ("performer_" +:+ fmt i +:+ "_role_coding") ;;
    ret tt) ;;
  _set_list_length "outcome_coding" ;;
  _set_list_length "report" ;;
  complication_count <- _set_list_length "complication" ;;
  for_ (range complication_count) (λ i,
    _set_list_length ("complication_" +:+ fmt i +:+ "_coding") ;;
    ret tt) ;;
  followup_count <- _set_list_length "followUp" ;;
  for_ (range followup_count) (λ i,
    _set_list_length ("followUp_" +:+ fmt i +:+ "_coding") ;;
    ret tt) ;;
  _set_list_length "notes" ;;
  device_count <- _set_list_length "focalDevice" ;;
  for_ (range device_count) (λ i,
    _set_list_length ("focalDevice_" +:+ fmt i +:+ "_action_coding") ;;
    ret tt) ;;
  _set_list_length "used" ;;
  ret tt.

Definition _decode_flattened_procedure : M unit :=
  let KEY_PDT := "performedDateTime" in
  let KEY_PP := "performedPeriod" in
  has_pdt <- dict_has KEY_PDT ;;
  when has_pdt (
    pdt <- dict_get KEY_PDT ;;
    dict_set _KEY_DATE_TIME pdt) ;;
  has_pp <- dict_has KEY_PP ;;
  when has_pp (
    pp <- dict_get KEY_PP ;;
    has_start <- lift (py_contains _KEY_START pp) ;;
    when has_start (
      pp <- dict_get KEY_PP ;;
      start <- lift (py_getitem pp _KEY_START) ;;
      dict_set _KEY_DATE_TIME start) ;;
    pp <- dict_get KEY_PP ;;
    has_end <- lift (py_contains _KEY_END pp) ;;
    when has_end (
      pp <- dict_get KEY_PP ;;
      end_ <- lift (py_getitem pp _KEY_END) ;;
      dict_set _KEY_END_DATE_TIME end_)) ;;
  procedure_lists.

(** The part of [_decode_flattened_patient] that works on the flattened
    dict, from the call of [_base_init] on. *)
Definition patient_lists : M unit :=
  _base_init ;;
  name_count <- _set_list_length "name" ;;
  for_ (range name_count) (λ i,
    for_ ["family"; "given"; "prefix"; "suffix"] (λ field,
      let key_name := "name_" +:+ fmt i +:+ "_" +:+ field in
      count <- _set_list_length key_name ;;
      for_ (range count) (λ j,
        _set_list_length (key_name +:+ "_" +:+ fmt j) ;;
        ret tt))) ;;
  _set_list_length "telecom" ;;
  addr_count <- _set_list_length "address" ;;
  for_ (range addr_count) (λ i,
    _set_list_length ("address_" +:+ fmt i +:+ "_line") ;;
    ret tt) ;;
  _set_list_length "maritalStatus_coding" ;;
  contact_count <- _set_list_length "contact" ;;
  for_ (range contact_count) (λ i,
    for_ ["relationship"; "telecom"] (λ field,
      let key_name := "contact_" +:+ fmt i +:+ "_" +:+ field in
      count <- _set_list_length key_name ;;
      for_ (range count) (λ j,
        _set_list_length (key_name +:+ "_" +:+ fmt j +:+ "_coding") ;;
        ret tt))) ;;
  _set_list_length "animal_species_coding" ;;
  _set_list_length "animal_breed_coding" ;;
  _set_list_length "animal_genderStatus_coding" ;;
  comm_count <- _set_list_length "communication" ;;
  for_ (range comm_count) (λ i,
    _set_list_length ("communication_" +:+ fmt i +:+ "_language_coding") ;;
    ret tt) ;;
  _set_list_length "careProvider" ;;
  _set_list_length "link" ;;
  ret tt.

(** A decoder called on a dict: the dict it returns, or the exception. *)
Definition returned (r : gmap string value * (exn + unit))
  : exn + gmap string value :=
  match r with
  | (obj, inr _) => inr obj
  | (_, inl e) => inl e
  end.

(** ** The dispatcher *)

Definition tab : string := String "009"%char EmptyString.
Definition dquote : string := String "034"%char EmptyString.

Section dispatch.
Variable time_finder_run : string → list TimeValue.

(** [data_access.flatten.flatten], which is not among the sources. *)
Variable flatten : gmap string value → gmap string value.

(** [json.loads]: the decoded value, or the message of the
    [JSONDecodeError] it raises. *)
Variable json_loads : string → string + value.

(** In [_decode_flattened_patient] the handler of the [try] names
    [json.decoder.JSONDecoderError]; the module [json.decoder] has no
    such attribute (the class is [JSONDecodeError]), so when
    [json.loads] raises, evaluating the [except] clause raises
    [AttributeError] and the handler body never runs. *)
Definition _decode_flattened_patient (obj : value)
  : exn + gmap string value :=
  res_bind
    (match obj with
     | VStr s =>
         match json_loads s with
         | inr o => inr o
         | inl _ => inl (AttributeError "JSONDecoderError")
         end
     | _ => inr obj
     end) (λ obj,
  match obj with
  | VDict d =>
      res_bind (_convert_datetimes time_finder_run (flatten d))
        (λ flattened_patient, returned (patient_lists flattened_patient))
  | _ => inl AssertionError
  end).

Definition _process_resource (obj : value)
  : exn + option (gmap string value) :=
  match obj with
  | VDict d =>
      res_bind (_convert_datetimes time_finder_run (flatten d))
        (λ flattened_obj,
      if bool_decide (is_Some (flattened_obj !! _STR_RESOURCE_TYPE)) then
        match d !! _STR_RESOURCE_TYPE with
        | None => inl (KeyError _STR_RESOURCE_TYPE)
        | Some rt =>
            if is_str "Patient" rt then
              res_map Some (_decode_flattened_patient (VDict flattened_obj))
            else if is_str "Observation" rt then
              res_map Some (returned (_decode_flattened_observation flattened_obj))
            else if is_str "Procedure" rt then
              res_map Some (returned (_decode_flattened_procedure flattened_obj))
            else if is_str "Condition" rt then
              res_map Some (returned (_decode_flattened_condition flattened_obj))
            else if is_str "MedicationStatement" rt then
              res_map Some
                (returned (_decode_flattened_medication_statement flattened_obj))
            else if is_str "MedicationOrder" rt then
              res_map Some
                (returned (_decode_flattened_medication_order flattened_obj))
            else if is_str "MedicationAdministration" rt then
              res_map Some
                (returned (_decode_flattened_medication_administration flattened_obj))
            else inr None
        end
      else inr None)
  | _ => inl AssertionError
  end.

(** The loop of [_decode_bundle] over the decoded list. *)
Fixpoint bundle_loop (elts : list value) (bundled_objs : list (gmap string value))
  : exn + list (gmap string value) :=
  match elts with
  | [] => inr bundled_objs
  | elt :: elts' =>
      res_bind (_process_resource elt) (λ result,
      match result with
      | Some r => bundle_loop elts' (bundled_objs ++ [r])
      | None => bundle_loop elts' bundled_objs
      end)
  end.

(** [_decode_bundle(name, bundle_obj)]: the lines printed, and the
    outcome. *)
Definition _decode_bundle (name : value) (bundle_obj : value)
  : list string * (exn + list (gmap string value)) :=
  match bundle_obj with
  | VStr s =>
      match json_loads s with
      | inl e =>
          ([tab +:+ _MODULE_NAME +:+
            ": String conversion (bundle) failed with error: " +:+
            dquote +:+ e +:+ dquote],
           inr [])
      | inr (VList elts) => ([], bundle_loop elts [])
      | inr _ => ([], inl AssertionError)
      end
  | _ => ([], inl AssertionError)
  end.

(** [decode_top_level_obj(obj)]: the lines printed, and the outcome. *)
Definition decode_top_level_obj (obj : value) : list string * (exn + value) :=
  let KEY_NAME := "name" in
  let KEY_RESULT := "result" in
  let KEY_RESULT_TYPE := "resultType" in
  match obj with
  | VDict d =>
      let name := default VNone (d !! KEY_NAME) in
      match d !! KEY_RESULT_TYPE, d !! KEY_RESULT with
      | Some result_type_str, Some result_obj =>
          if is_str "Patient" result_type_str then
            ([], res_map VDict (_decode_flattened_patient result_obj))
          else if is_str "FhirBundleCursorStu2" result_type_str
               || is_str "FhirBundleCursorStu3" result_type_str then
            let '(out, r) := _decode_bundle name result_obj in
            (out, res_map (λ l, VList (VDict <$> l)) r)
          else ([], inr VNone)
      | _, _ => ([], inr VNone)
      end
  | _ => ([], inl AssertionError)
  end.
End dispatch.

(** ** Inputs used in the examples below *)

Definition instant_text : string := "2020-03-14T08:30:00.500-05:00".

(** A decomposition of ["08:30:00.500-05:00"] that reports the fraction
    by its digits, [500]. *)
Definition tv_fraction_digits : TimeValue :=
  mk_TimeValue 8 30 0 (Some 500%Z) (Some "-") (Some 5%Z) (Some 0%Z).

(** A decomposition of ["08:30:00-05:30"]. *)
Definition tv_half_hour : TimeValue :=
  mk_TimeValue 8 30 0 None (Some "-") (Some 5%Z) (Some 30%Z).

Definition run_const (tv : TimeValue) : string → list TimeValue := λ _, [tv].

Definition obj_issued : gmap string value :=
  {[ "issued" := VStr instant_text ]}.

(** The unformatted template that [_decode_flattened_medication_administration]
    passes as a prefix, and a dict with one key. *)
Definition template_prefix : string := "reasonNotGiven_{0}_coding".

Definition obj_template : gmap string value :=
  {[ "reasonNotGiven_coding_0" := VStr "x" ]}.

(** Flattened records with a period. *)
Definition period_end_only : gmap string value :=
  {[ "end" := VStr "2020-03-15" ]}.

Definition period_start_only : gmap string value :=
  {[ "start" := VStr "2019-01-01" ]}.

Definition obj_observation_period : gmap string value :=
  {[ "effectivePeriod" := VDict period_end_only ]}.

Definition obj_condition_both : gmap string value :=
  {[ "onsetDateTime" := VStr "2018-06-30";
     "onsetPeriod" := VDict period_start_only ]}.

Definition obj_condition_no_start : gmap string value :=
  {[ "onsetPeriod" := VDict period_end_only ]}.

Definition obj_condition_no_end : gmap string value :=
  {[ "abatementPeriod" := VDict period_start_only ]}.

Definition obj_procedure_empty_period : gmap string value :=
  {[ "performedPeriod" := VDict ∅ ]}.

Definition obj_observation_empty_period : gmap string value :=
  {[ "effectivePeriod" := VDict ∅ ]}.

(** A flattened MedicationAdministration record with one coded reason,
    and a flattened Condition record with one coded body site. *)
Definition obj_reason_not_given : gmap string value :=
  {[ "reasonNotGiven_0_coding_0_code" := VStr "x" ]}.

Definition obj_body_site : gmap string value :=
  {[ "bodySite_0_coding_0_code" := VStr "x" ]}.

(** Collaborators for the examples: a [json.loads] that rejects every
    payload, and a [flatten] that leaves an already flat record alone. *)
Definition json_loads_fail : string → string + value :=
  λ _, inl "Expecting value: line 1 column 1 (char 0)".

Definition flatten_flat : gmap string value → gmap string value := λ d, d.

Definition obj_unsupported : gmap string value :=
  {[ "resourceType" := VStr "Unsupported" ]}.

Definition envelope_patient : gmap string value :=
  {[ "resultType" := VStr "Patient"; "result" := VStr "{not json" ]}.

(** A prefix whose derived [len_] key matches its own search pattern. *)
Definition looping_prefix : string := "5{0}len".

Definition obj_looping : gmap string value := {[ "len_0" := VStr "x" ]}.

(** ** The supported resource types *)

Definition supported_types : list string :=
  ["Patient"; "Observation"; "Procedure"; "Condition";
   "MedicationStatement"; "MedicationOrder"; "MedicationAdministration"].

(** The line [_decode_bundle] prints for a [JSONDecodeError] with
    message [e]. *)
Definition bundle_report (e : string) : string :=
  tab +:+ _MODULE_NAME +:+
  ": String conversion (bundle) failed with error: " +:+
  dquote +:+ e +:+ dquote.

(** ** Specification of list-length inference *)

(** The pattern of a prefix made of plain characters only. *)
Fixpoint plain_atoms (s : string) : list atom :=
  match s with
  | EmptyString => []
  | String c s' => Rep c 1 :: plain_atoms s'
  end.

(** After the specification: the key [k] matches [prefix_<digits>],
    possibly followed by more text, and [n] is the integer the digits
    denote. *)
Definition key_index (prefix_str k : string) (n : Z) : Prop :=
  ∃ ds rest,
    k = prefix_str +:+ "_" +:+ ds +:+ rest ∧
    ds ≠ EmptyString ∧
    string_forall is_digit ds = true ∧
    n = int_of_digits 0 ds.

(** After the specification: [m] is the largest index among the keys of
    [obj] that match [prefix_<digits>]. *)
Definition max_index (prefix_str : string) (obj : gmap string value) (m : Z)
  : Prop :=
  (∃ k, is_Some (obj !! k) ∧ key_index prefix_str k m) ∧
  (∀ k n, is_Some (obj !! k) → key_index prefix_str k n → (n ≤ m)%Z).

(** What the loop of [_set_list_length] computes, stated on the keys of
    the dict: nothing when no key matches the pattern, else the largest
    number a matching key carries. *)
Definition scan_is (pat : list atom) (obj : gmap string value) (r : option Z)
  : Prop :=
  match r with
  | None => ∀ k, is_Some (obj !! k) → re_match_num pat k = None
  | Some m =>
      (∃ k, is_Some (obj !! k) ∧ re_match_num pat k = Some m) ∧
      (∀ k n, is_Some (obj !! k) → re_match_num pat k = Some n → (n ≤ m)%Z)
  end.

(** ** Specification of the list-length part of a decoder *)

(** The keys list-length inference writes. *)
Definition is_len_key (k : string) : bool := String.prefix "len_" k.

(** A computation that returns on every dict and leaves every key
    untouched that does not begin with [len_]. *)
Definition infers_lengths {A} (m : M A) : Prop :=
  ∀ obj, ∃ obj' a,
    m obj = (obj', inr a) ∧
    ∀ k, is_len_key k = false → obj' !! k = obj !! k.

(** A computation that leaves the entry at [k] as it was, whether it
    returns or raises. *)
Definition keeps (k : string) {A} (m : M A) : Prop :=
  ∀ obj, (m obj).1 !! k = obj !! k.

(** ** Calendar dates *)

(** The checks the [datetime] constructor makes on its date fields. *)
Definition valid_date (y mo d : Z) : bool :=
  in_range 1 y 9999 && in_range 1 mo 12 && in_range 1 d (days_in_month y mo).

(** More inputs for the examples. *)
Definition instant_digits : datetime :=
  mk_datetime 2020 3 14 8 30 0 500 (Some (-300)%Z).

Definition obj_issued_converted : gmap string value :=
  {[ "issued" := VDateTime instant_digits ]}.

Definition obj_plain_strings : gmap string value :=
  {[ "status" := VStr "final"; "id" := VStr "2020-03"; "count" := VNum 3 ]}.

Definition obj_bad_date : gmap string value :=
  {[ "birthDate" := VStr "2021-02-30"; "id" := VStr "p1" ]}.

Definition obj_two_names : gmap string value :=
  {[ "name_0_family" := VStr "Doe"; "name_1_family" := VStr "Roe" ]}.

Definition obj_three_names : gmap string value :=
  <[ "name_2_family" := VStr "Poe" ]> obj_two_names.

Definition obj_medication_order : gmap string value :=
  {[ "dateWritten" := VStr "2020-01-01"; "dateEnded" := VStr "2020-02-01" ]}.

Definition period_both : gmap string value :=
  {[ "start" := VStr "2019-01-01"; "end" := VStr "2019-01-02" ]}.

Definition obj_procedure_period : gmap string value :=
  {[ "performedPeriod" := VDict period_both ]}.

Definition obj_administration_period : gmap string value :=
  {[ "effectiveTimePeriod" := VDict period_end_only ]}.

Definition obj_procedure_text_period : gmap string value :=
  {[ "performedPeriod" := VStr "from the start" ]}.

Definition obj_order_resource : gmap string value :=
  {[ "resourceType" := VStr "MedicationOrder";
     "dateWritten" := VStr "2020-01-01" ]}.

Definition obj_order_normalised : gmap string value :=
  {[ "resourceType" := VStr "MedicationOrder";
     "dateWritten" := VDateTime (mk_datetime 2020 1 1 0 0 0 0 None) ]}.

Definition obj_patient_resource : gmap string value :=
  {[ "resourceType" := VStr "Patient"; "name_0_family" := VStr "Doe" ]}.

Definition envelope_other : gmap string value :=
  {[ "resultType" := VStr "Observation"; "result" := VStr "[]" ]}.

(** A [json.loads] that reads every payload as the same value. *)
Definition json_loads_const (v : value) : string → string + value :=
  λ _, inr v.

(** ** Specification of the entries a decoder writes *)

(** [s] begins with [pre]. *)
Fixpoint starts_with (pre s : string) : bool :=
  match pre, s with
  | EmptyString, _ => true
  | String a pre', String b s' => Ascii.eqb a b && starts_with pre' s'
  | String _ _, EmptyString => false
  end.

(** [obj] is [obj0] up to entries whose key begins with [len_]. *)
Definition len_variant (obj0 obj : gmap string value) : Prop :=
  ∀ k, is_len_key k = false → obj !! k = obj0 !! k.




(** An Observation and a MedicationAdministration record whose period
    has a start only. *)
Definition obj_observation_start : gmap string value :=
  {[ "effectiveDateTime" := VStr "2018-06-30";
     "effectivePeriod" := VDict period_start_only ]}.

Definition obj_administration_start : gmap string value :=
  {[ "effectiveTimeDateTime" := VStr "2018-06-30";
     "effectiveTimePeriod" := VDict period_start_only ]}.

(** * The test driver: [expr_tester.py] *)

(** [c * k] for a one-character string [c]: [k] copies, none when [k]
    is negative. *)
Fixpoint str_rep (c : ascii) (n : nat) : string :=
  match n with
  | O => EmptyString
  | S n' => String c (str_rep c n')
  end.

Definition str_mul (c : ascii) (k : Z) : string := str_rep c (Z.to_nat k).

(** [banner_print]: the five lines it prints, top to bottom. The length
    of the message counts its characters. *)
Definition banner_print (msg : string) : list string :=
  let MIN_WIDTH := 79%Z in
  let n := Z.of_nat (String.length msg) in
  let ws := if (n <? MIN_WIDTH)%Z then ((MIN_WIDTH - 2 - n) / 2)%Z else 1%Z in
  let ws_left := ws in
  let ws_right := if (0 =? n mod 2)%Z then (ws + 1)%Z else ws in
  let star_count := (1 + ws_left + n + ws_right + 1)%Z in
  [ str_mul "*" star_count;
    "*" +:+ str_mul " " (star_count - 2) +:+ "*";
    "*" +:+ str_mul " " ws_left +:+ msg +:+ str_mul " " ws_right +:+ "*";
    "*" +:+ str_mul " " (star_count - 2) +:+ "*";
    str_mul "*" star_count ].

(** The widths of the lines of a banner. *)
Definition widths (lines : list string) : list Z :=
  map (λ l, Z.of_nat (String.length l)) lines.

(** The three prefixes the module passes without formatting them
    (lines 306, 310 and 393 of the source). *)
Definition unformatted_templates : list string :=
  ["reasonNotGiven_{0}_coding"; "reasonGiven_{0}_coding"; "reason_{0}_coding"].

(** A Condition resource with an onset period only, and a resource of
    an unknown type with a date that is no calendar date. *)
Definition obj_condition_period_only : gmap string value :=
  {[ "resourceType" := VStr "Condition";
     "onsetPeriod" := VDict period_start_only ]}.

Definition obj_unsupported_bad_date : gmap string value :=
  {[ "resourceType" := VStr "Unsupported";
     "birthDate" := VStr "2021-02-30" ]}.

(** * Properties *)

Local Open Scope Z_scope.

(** ** Outcomes *)

Lemma first_error_Some {A B} (f : A → exn + B) (l : list A) e :
  first_error (f <$> l) = Some e → ∃ x, x ∈ l ∧ f x = inl e.
Proof.
  induction l as [|a l IH]; simpl; [done|].
  destruct (f a) as [e'|b] eqn:Hfa.
  - intros [= ->]. exists a. split; [left|done].
  - intros H. destruct (IH H) as (x & Hx & Hfx).
    exists x. split; [by right|done].
Qed.

Lemma first_error_None {A B} (f : A → exn + B) (l : list A) :
  (∀ x, x ∈ l → ∃ b, f x = inr b) → first_error (f <$> l) = None.
Proof.
  induction l as [|a l IH]; simpl; intros H; [done|].
  destruct (H a) as [b ->]; [left|].
  apply IH. intros x Hx. apply H. by right.
Qed.

Lemma in_range_spec lo x hi : in_range lo x hi = true ↔ lo ≤ x ≤ hi.
Proof. unfold in_range. rewrite andb_true_iff, !Z.leb_le. done. Qed.

Lemma datetime_new_inr y mo d hh mi ss us tz :
  1 ≤ y ≤ 9999 → 1 ≤ mo ≤ 12 → 1 ≤ d ≤ days_in_month y mo →
  0 ≤ hh ≤ 23 → 0 ≤ mi ≤ 59 → 0 ≤ ss ≤ 59 → 0 ≤ us ≤ 999999 →
  datetime_new y mo d hh mi ss us tz = inr (mk_datetime y mo d hh mi ss us tz).
Proof.
  intros. unfold datetime_new.
  by rewrite !(proj2 (in_range_spec _ _ _)).
Qed.

(** The microsecond field the pass computes is always acceptable to the
    [datetime] constructor. *)
Lemma microsecond_in_range f : 0 ≤ f mod 999999 ≤ 999999.
Proof. pose proof (Z.mod_pos_bound f 999999). lia. Qed.

(** ** [_convert_datetimes] entry by entry *)

Section convert_facts.
Variable run : string → list TimeValue.

(** What the pass does to an entry whose value converts: if the pass
    returns, the entry holds the converted value; if it raises, the
    exception comes from another entry. *)
Lemma convert_datetimes_entry (obj : gmap string value) k v r :
  obj !! k = Some v →
  convert_value run v = inr r →
  match _convert_datetimes run obj with
  | inr obj' => obj' !! k = Some r
  | inl e => ∃ k' v', k' ≠ k ∧ obj !! k' = Some v' ∧ convert_value run v' = inl e
  end.
Proof.
  intros Hk Hv. unfold _convert_datetimes.
  destruct (first_error _) as [e|] eqn:Herr.
  - apply first_error_Some in Herr as ([k' v'] & Hin & He).
    apply elem_of_map_to_list in Hin. simpl in He.
    exists k', v'. split_and!; [|done..].
    intros ->. congruence.
  - rewrite lookup_fmap, Hk. simpl. unfold converted. by rewrite Hv.
Qed.

(** The pass returns when every entry converts. *)
Lemma convert_datetimes_returns (obj : gmap string value) :
  (∀ k v, obj !! k = Some v → ∃ r, convert_value run v = inr r) →
  _convert_datetimes run obj = inr (converted run <$> obj).
Proof.
  intros H. unfold _convert_datetimes.
  rewrite first_error_None; [done|].
  intros [k v] Hin. apply elem_of_map_to_list in Hin. simpl. eauto.
Qed.
End convert_facts.

Lemma regex_datetime_instant_text :
  _regex_datetime instant_text = Some (2020, 3, 14, Some "08:30:00.500-05:00"%string).
Proof. reflexivity. Qed.

Lemma timedelta_inr h m :
  -1440 < h * 60 + m < 1440 → timedelta h m = inr (h * 60 + m).
Proof.
  intros H. unfold timedelta.
  rewrite (proj2 (in_range_spec _ _ _)); [done|].
  split; [apply Z.div_le_lower_bound|apply Z.div_le_upper_bound]; lia.
Qed.

Lemma timezone_inr offset : -1440 < offset < 1440 → timezone offset = inr offset.
Proof.
  intros H. unfold timezone.
  by rewrite (proj2 (andb_true_iff _ _) (conj (proj2 (Z.ltb_lt _ _) (proj1 H))
                                              (proj2 (Z.ltb_lt _ _) (proj2 H)))).
Qed.

(** ** The full instant of the specification's example *)

(** C2, as amended. For every record that holds
    ["2020-03-14T08:30:00.500-05:00"] under a key [k], and every
    decomposition of the time substring with hours 8, minutes 30,
    seconds 0, an offset of minus 5 hours 0 minutes and fractional
    seconds whose integer value is [f]: when the normalisation pass
    returns, the entry at [k] is the instant 2020-03-14 08:30:00 with
    microsecond [f mod 999999] and a UTC offset of -5 hours; the pass
    raises only when some other entry fails to convert. *)
Theorem convert_datetimes_full_instant
    (run : string → list TimeValue) (obj : gmap string value) k tv f :
  run "08:30:00.500-05:00"%string = [tv] →
  hours tv = 8 → minutes tv = 30 → seconds tv = 0 →
  fractional_seconds tv = Some f →
  gmt_delta_sign tv = Some "-"%string →
  gmt_delta_hours tv = Some 5 →
  gmt_delta_minutes tv = Some 0 →
  obj !! k = Some (VStr instant_text) →
  match _convert_datetimes run obj with
  | inr obj' =>
      obj' !! k =
        Some (VDateTime (mk_datetime 2020 3 14 8 30 0 (f mod 999999) (Some (-300))))
  | inl e => ∃ k' v', k' ≠ k ∧ obj !! k' = Some v' ∧ convert_value run v' = inl e
  end.
Proof.
  intros Hrun Hh Hm Hs Hf Hsign Hdh Hdm Hk.
  apply convert_datetimes_entry with (v := VStr instant_text); [done|].
  unfold convert_value, convert_string.
  rewrite regex_datetime_instant_text, Hrun, Hh, Hm, Hs, Hf, Hsign, Hdh, Hdm.
  generalize (microsecond_in_range f). generalize (f mod 999999). intros us Hus.
  cbn -[datetime_new timedelta timezone Z.mul].
  rewrite timedelta_inr by lia. cbn [res_bind].
  rewrite timezone_inr by lia. cbn [res_bind].
  rewrite datetime_new_inr; [done|first [exact Hus|by vm_compute]..].
Qed.

Lemma convert_datetimes_full_instant_witness :
  match _convert_datetimes (run_const tv_fraction_digits) obj_issued with
  | inr obj' =>
      obj' !! "issued"%string =
        Some (VDateTime (mk_datetime 2020 3 14 8 30 0 (500 mod 999999) (Some (-300))))
  | inl e =>
      ∃ k' v', k' ≠ "issued"%string ∧ obj_issued !! k' = Some v' ∧
               convert_value (run_const tv_fraction_digits) v' = inl e
  end.
Proof.
  apply (convert_datetimes_full_instant (run_const tv_fraction_digits)
           obj_issued "issued"%string tv_fraction_digits 500);
    reflexivity.
Defined.

(** C2, as stated, fails: with the fraction of [.500] reported by its
    digits, the pass stores microsecond 500, not 500000. *)
Lemma full_instant_microsecond_counterexample :
  ∃ obj' d,
    _convert_datetimes (run_const tv_fraction_digits) obj_issued = inr obj' ∧
    obj' !! "issued"%string = Some (VDateTime d) ∧
    microsecond d = 500 ∧ microsecond d ≠ 500000.
Proof.
  eexists _, _. split_and!; [vm_compute; reflexivity|vm_compute; reflexivity|done|done].
Qed.

(** ** The sign of the UTC offset *)

(** C10. For every timestamp string with a time part whose
    decomposition carries the sign ['-'], offset hours [h] and nonzero
    offset minutes [m], and whose date and clock fields are in range,
    the value stored has the UTC offset [-h] hours plus [m] minutes: the
    sign is applied to the hours only, so the offset differs from
    [-(h hours m minutes)]. *)
Theorem convert_string_negative_offset
    (run : string → list TimeValue) v y mo d time_str tv h m :
  _regex_datetime v = Some (y, mo, d, Some time_str) →
  run time_str = [tv] →
  gmt_delta_sign tv = Some "-"%string →
  gmt_delta_hours tv = Some h →
  gmt_delta_minutes tv = Some m →
  0 ≤ h ≤ 23 → 0 < m ≤ 59 →
  1 ≤ y ≤ 9999 → 1 ≤ mo ≤ 12 → 1 ≤ d ≤ days_in_month y mo →
  0 ≤ hours tv ≤ 23 → 0 ≤ minutes tv ≤ 59 → 0 ≤ seconds tv ≤ 59 →
  ∃ us,
    convert_value run (VStr v) =
      inr (VDateTime (mk_datetime y mo d (hours tv) (minutes tv) (seconds tv) us
                        (Some (- h * 60 + m)))) ∧
    - h * 60 + m ≠ - (h * 60 + m).
Proof.
  intros Hre Hrun Hsign Hdh Hdm Hh Hm Hy Hmo Hd Hhh Hmi Hss.
  exists (match fractional_seconds tv with Some f => f mod 999999 | None => 0 end).
  split; [|lia].
  unfold convert_value, convert_string. rewrite Hre, Hrun, Hsign, Hdh, Hdm.
  cbn -[datetime_new timedelta timezone Z.mul Z.modulo].
  rewrite timedelta_inr by lia. cbn [res_bind].
  rewrite timezone_inr by lia. cbn [res_bind].
  replace (-1 * h * 60 + m) with (- h * 60 + m) by lia.
  rewrite datetime_new_inr; [done|try done..].
  destruct (fractional_seconds tv); [apply microsecond_in_range|lia].
Qed.

Lemma convert_string_negative_offset_witness :
  ∃ us,
    convert_value (run_const tv_half_hour) (VStr "2020-03-14T08:30:00-05:30") =
      inr (VDateTime (mk_datetime 2020 3 14 8 30 0 us (Some (- 5 * 60 + 30)))) ∧
    - 5 * 60 + 30 ≠ - (5 * 60 + 30).
Proof.
  apply (convert_string_negative_offset (run_const tv_half_hour)
           "2020-03-14T08:30:00-05:30" 2020 3 14 "08:30:00-05:30" tv_half_hour 5 30);
    try reflexivity; vm_compute; intuition discriminate.
Defined.

(** ** Strings *)

Lemma append_nil s : EmptyString +:+ s = s.
Proof. reflexivity. Qed.

Lemma append_cons c s t : String c s +:+ t = String c (s +:+ t).
Proof. reflexivity. Qed.

Lemma append_assoc s t u : (s +:+ t) +:+ u = s +:+ t +:+ u.
Proof. induction s as [|c s IH]; [done|]. by rewrite !append_cons, IH. Qed.

Lemma string_forall_app p s t :
  string_forall p (s +:+ t) = string_forall p s && string_forall p t.
Proof.
  induction s as [|c s IH]; [done|].
  rewrite append_cons. simpl. by rewrite IH, andb_assoc.
Qed.

Lemma digit_val_range c : is_digit c = true → 0 ≤ digit_val c ≤ 9.
Proof.
  unfold is_digit, digit_val. rewrite andb_true_iff, !N.leb_le. lia.
Qed.

Lemma int_of_digits_app acc s t :
  int_of_digits acc (s +:+ t) = int_of_digits (int_of_digits acc s) t.
Proof.
  revert acc. induction s as [|c s IH]; intros acc; [done|].
  rewrite append_cons. simpl. apply IH.
Qed.

Lemma int_of_digits_ge acc s :
  0 ≤ acc → string_forall is_digit s = true → acc ≤ int_of_digits acc s.
Proof.
  revert acc. induction s as [|c s IH]; intros acc Hacc Hs; simpl; [lia|].
  simpl in Hs. apply andb_true_iff in Hs as [Hc Hs].
  pose proof (digit_val_range c Hc).
  etrans; [|apply IH]; [lia|lia|done].
Qed.

Lemma take_digits_spec s ds rest :
  take_digits s = (ds, rest) →
  s = ds +:+ rest ∧ string_forall is_digit ds = true.
Proof.
  revert ds rest. induction s as [|c s IH]; intros ds rest; simpl.
  - by intros [= <- <-].
  - destruct (is_digit c) eqn:Hc.
    + destruct (take_digits s) as [ds' rest'].
      intros [= <- <-]. destruct (IH _ _ eq_refl) as [-> Hds].
      rewrite append_cons. simpl. by rewrite Hc.
    + by intros [= <- <-].
Qed.

Lemma take_digits_app ds rest :
  string_forall is_digit ds = true →
  take_digits (ds +:+ rest) = (ds +:+ (take_digits rest).1, (take_digits rest).2).
Proof.
  induction ds as [|c ds IH]; intros Hds.
  - rewrite !append_nil. by destruct (take_digits rest).
  - simpl in Hds. apply andb_true_iff in Hds as [Hc Hds].
    rewrite !append_cons. simpl. rewrite Hc, (IH Hds). done.
Qed.

(** ** Plain prefixes and their pattern *)

Lemma is_plain_not_brace c : is_plain c = true → Ascii.eqb c "{" = false.
Proof.
  intros H. destruct (Ascii.eqb_spec c "{"%char) as [->|]; [|done].
  vm_compute in H. discriminate.
Qed.

Lemma parse_prefix_plain p pending :
  string_forall is_plain p = true →
  parse_prefix p pending = Some (flush pending ++ plain_atoms p).
Proof.
  revert pending. induction p as [|c p IH]; intros pending H; simpl.
  - by rewrite app_nil_r.
  - simpl in H. apply andb_true_iff in H as [Hc Hp].
    rewrite (is_plain_not_brace c Hc), Hc, (IH _ Hp). done.
Qed.

Lemma search_pattern_plain p :
  string_forall is_plain p = true → search_pattern p = Some (plain_atoms p).
Proof. intros H. unfold search_pattern. by rewrite parse_prefix_plain. Qed.

Lemma match_atoms_plain p k rest :
  match_atoms (plain_atoms p) k = Some rest ↔ k = p +:+ rest.
Proof.
  revert k. induction p as [|c p IH]; intros k.
  - rewrite append_nil. simpl. split; congruence.
  - rewrite append_cons. cbn [plain_atoms match_atoms].
    change (N.to_nat 1) with 1%nat. cbn [strip_rep].
    destruct k as [|c' k]; [split; discriminate|].
    destruct (Ascii.eqb_spec c c') as [->|Hne].
    + rewrite IH. split; congruence.
    + split; [discriminate|congruence].
Qed.

Lemma re_match_num_nonneg pat k n : re_match_num pat k = Some n → 0 ≤ n.
Proof.
  unfold re_match_num. destruct (match_atoms pat k) as [[|c rest]|]; [done| |done].
  destruct (Ascii.eqb c "_"); [|done].
  destruct (take_digits rest) as [ds r] eqn:Htd.
  apply take_digits_spec in Htd as [_ Hds].
  destruct ds as [|d ds]; [done|]. intros [= <-].
  by apply (int_of_digits_ge 0 (String d ds)).
Qed.

(** For a plain prefix, a key the pattern matches is a key of the form
    [prefix_<digits>], with the number the pattern extracts. *)
Lemma re_match_num_plain_sound p k n :
  re_match_num (plain_atoms p) k = Some n → key_index p k n.
Proof.
  unfold re_match_num.
  destruct (match_atoms (plain_atoms p) k) as [[|c rest]|] eqn:Hm; [done| |done].
  apply match_atoms_plain in Hm as ->.
  destruct (Ascii.eqb_spec c "_"%char) as [->|]; [|done].
  destruct (take_digits rest) as [ds r] eqn:Htd.
  apply take_digits_spec in Htd as [-> Hds].
  destruct ds as [|d ds]; [done|]. intros [= <-].
  exists (String d ds), r. split_and!; done.
Qed.

(** Conversely the pattern matches every key of that form, and the
    number it extracts (from the longest run of digits) is at least the
    number of any shorter reading. *)
Lemma re_match_num_plain_complete p k n' :
  key_index p k n' →
  ∃ n, re_match_num (plain_atoms p) k = Some n ∧ n' ≤ n.
Proof.
  intros (ds & rest & -> & Hne & Hds & ->).
  unfold re_match_num.
  rewrite (proj2 (match_atoms_plain p _ ("_" +:+ ds +:+ rest)) eq_refl).
  rewrite append_cons, append_nil. simpl.
  rewrite (take_digits_app ds rest Hds).
  destruct (take_digits rest) as [ds2 r2] eqn:Htd. simpl.
  apply take_digits_spec in Htd as [_ Hds2].
  destruct ds as [|d ds]; [done|]. rewrite append_cons.
  eexists. split; [done|].
  rewrite <- append_cons, int_of_digits_app.
  apply int_of_digits_ge; [|done].
  by apply (int_of_digits_ge 0).
Qed.

(** The derived key [len_<prefix>] is not of the form [prefix_<digits>]. *)
Lemma len_key_shape n p d rest :
  (String.length p < n)%nat → is_digit d = true →
  "len_" +:+ p ≠ p +:+ String "_" (String d rest).
Proof.
  revert p. induction n as [|n IH]; intros p Hlen Hd; [lia|].
  destruct p as [|c1 [|c2 [|c3 [|c4 p]]]]; rewrite ?append_cons, ?append_nil.
  - intros H. simplify_eq.
  - intros H. simplify_eq.
  - intros H. simplify_eq.
  - intros H. simplify_eq.
  - intros H. injection H as H1 H2 H3 H4 H. subst c1 c2 c3 c4.
    revert H.
    change (String "l" (String "e" (String "n" (String "_" p))))
      with ("len_" +:+ p).
    apply IH; [simpl in Hlen; lia|done].
Qed.

Lemma len_key_not_indexed p n : ¬ key_index p ("len_" +:+ p) n.
Proof.
  intros (ds & rest & Heq & Hne & Hds & _).
  destruct ds as [|d ds]; [done|].
  simpl in Hds. apply andb_true_iff in Hds as [Hd _].
  revert Heq. rewrite !append_cons, append_nil.
  change (String "l" (String "e" (String "n" (String "_" p))))
    with ("len_" +:+ p).
  by apply (len_key_shape (S (String.length p))); [lia|].
Qed.

(** ** The loop of [_set_list_length] *)

Lemma scan_step_Some pat acc k num :
  re_match_num pat k = Some num →
  scan_step pat acc k = Some (Z.max num (default 0 acc)).
Proof.
  intros H. unfold scan_step. rewrite H.
  destruct acc as [a|]; simpl; destruct (Z.gtb_spec num a) || destruct (Z.gtb_spec num 0);
    f_equal; lia.
Qed.

Lemma scan_step_None pat acc k :
  re_match_num pat k = None → scan_step pat acc k = acc.
Proof. intros H. unfold scan_step. by rewrite H. Qed.

Lemma scan_fold pat (l : list string) acc :
  (∀ a, acc = Some a → 0 ≤ a) →
  match foldl (scan_step pat) acc l with
  | None => acc = None ∧ ∀ k, k ∈ l → re_match_num pat k = None
  | Some m =>
      (acc = Some m ∨ ∃ k, k ∈ l ∧ re_match_num pat k = Some m) ∧
      (∀ a, acc = Some a → a ≤ m) ∧
      (∀ k n, k ∈ l → re_match_num pat k = Some n → n ≤ m)
  end.
Proof.
  revert acc. induction l as [|k l IH]; intros acc Hacc; simpl.
  - destruct acc as [a|].
    + split_and!; [by left|by intros ? [= ->]|]. intros ?? Hin. by apply elem_of_nil in Hin.
    + split; [done|]. intros ? Hin. by apply elem_of_nil in Hin.
  - destruct (re_match_num pat k) as [num|] eqn:Hk.
    + pose proof (re_match_num_nonneg _ _ _ Hk) as Hnum.
      rewrite (scan_step_Some _ _ _ _ Hk).
      specialize (IH (Some (Z.max num (default 0 acc)))).
      destruct (foldl _ _ l) as [m|].
      * destruct IH as (Hex & Hle & Hall); [intros ? [= <-]; lia|].
        specialize (Hle _ eq_refl).
        split_and!.
        -- destruct Hex as [[= Hm]|(k' & Hin & Hk')].
           ++ destruct acc as [a|]; simpl in *.
              ** destruct (Z.max_spec num a) as [[_ Hmax]|[_ Hmax]].
                 --- left. f_equal. lia.
                 --- right. exists k. split; [left|]. rewrite Hk. f_equal. lia.
              ** right. exists k. split; [left|]. rewrite Hk. f_equal. lia.
           ++ right. exists k'. split; [by right|done].
        -- intros a ->. simpl in Hle. lia.
        -- intros k' n Hin Hk'. apply elem_of_cons in Hin as [->|Hin].
           ++ rewrite Hk in Hk'. injection Hk' as <-. lia.
           ++ by apply (Hall k').
      * destruct IH as [[=] _]. intros ? [= <-]; lia.
    + rewrite (scan_step_None _ _ _ Hk).
      specialize (IH acc Hacc).
      destruct (foldl _ _ l) as [m|].
      * destruct IH as (Hex & Hle & Hall). split_and!; [|done|].
        -- destruct Hex as [?|(k' & Hin & Hk')]; [by left|].
           right. exists k'. split; [by right|done].
        -- intros k' n Hin Hk'. apply elem_of_cons in Hin as [->|Hin]; [congruence|].
           by apply (Hall k').
      * destruct IH as [-> Hall]. split; [done|].
        intros k' Hin. apply elem_of_cons in Hin as [->|Hin]; [done|by apply Hall].
Qed.

Lemma elem_of_keys (obj : gmap string value) k :
  k ∈ (map_to_list obj).*1 ↔ is_Some (obj !! k).
Proof.
  rewrite list_elem_of_fmap. split.
  - intros ([k' v] & -> & Hin). apply elem_of_map_to_list in Hin. by exists v.
  - intros [v Hv]. exists (k, v). split; [done|]. by apply elem_of_map_to_list.
Qed.

Lemma scan_is_scan pat obj : scan_is pat obj (scan pat obj).
Proof.
  unfold scan_is, scan.
  pose proof (scan_fold pat (map_to_list obj).*1 None) as H.
  destruct (foldl _ _ _) as [m|].
  - destruct H as ([[=]|(k & Hin & Hk)] & _ & Hall); [done|].
    split.
    + exists k. split; [by apply elem_of_keys|done].
    + intros k' n Hin'. apply Hall. by apply elem_of_keys.
  - destruct H as [_ Hall]; [done|].
    intros k Hin. apply Hall. by apply elem_of_keys.
Qed.

Lemma scan_is_unique pat obj r1 r2 :
  scan_is pat obj r1 → scan_is pat obj r2 → r1 = r2.
Proof.
  destruct r1 as [m1|], r2 as [m2|]; simpl.
  - intros [(k1 & Hin1 & Hk1) Hall1] [(k2 & Hin2 & Hk2) Hall2].
    f_equal. pose proof (Hall1 _ _ Hin2 Hk2). pose proof (Hall2 _ _ Hin1 Hk1). lia.
  - intros [(k1 & Hin1 & Hk1) _] Hnone. specialize (Hnone _ Hin1). congruence.
  - intros Hnone [(k2 & Hin2 & Hk2) _]. specialize (Hnone _ Hin2). congruence.
  - done.
Qed.

(** A key the pattern does not match does not change what the loop finds. *)
Lemma scan_insert pat (obj : gmap string value) k0 v :
  re_match_num pat k0 = None →
  scan pat (<[k0 := v]> obj) = scan pat obj.
Proof.
  intros Hk0. apply (scan_is_unique pat (<[k0 := v]> obj)); [apply scan_is_scan|].
  pose proof (scan_is_scan pat obj) as H.
  assert (Hlk : ∀ k, k ≠ k0 → <[k0 := v]> obj !! k = obj !! k)
    by (intros; by apply lookup_insert_ne).
  destruct (scan pat obj) as [m|]; simpl in *.
  - destruct H as [(k & Hin & Hk) Hall]. split.
    + exists k. split; [|done]. rewrite Hlk; [done|]. intros ->. congruence.
    + intros k' n Hin' Hk'. apply (Hall k'); [|done].
      rewrite <- Hlk; [done|]. intros ->. congruence.
  - intros k Hin. destruct (decide (k = k0)) as [->|Hne]; [done|].
    apply H. by rewrite <- Hlk.
Qed.

Lemma len_key_no_match p :
  re_match_num (plain_atoms p) ("len_" +:+ p) = None.
Proof.
  destruct (re_match_num _ _) as [n|] eqn:H; [|done].
  apply re_match_num_plain_sound in H. by apply len_key_not_indexed in H.
Qed.

(** ** List-length inference for plain prefixes *)

(** C4, as amended. For every mapping and every prefix made of ASCII
    characters that are no regular-expression metacharacters:
    list-length inference returns 0 and leaves the mapping unchanged
    when no key is of the form [prefix_<digits>] (possibly followed by
    more text); otherwise it writes [len_<prefix>] with value
    [max_index + 1], [max_index] being the largest index among those
    keys, and returns that count. *)
Theorem set_list_length_plain_prefix prefix_str (obj : gmap string value) :
  string_forall is_plain prefix_str = true →
  ((∀ k n, is_Some (obj !! k) → ¬ key_index prefix_str k n) →
     _set_list_length prefix_str obj = (obj, inr 0)) ∧
  ((∃ k n, is_Some (obj !! k) ∧ key_index prefix_str k n) →
     ∃ m, max_index prefix_str obj m ∧
          _set_list_length prefix_str obj =
            (<["len_" +:+ prefix_str := VNum (m + 1)]> obj, inr (m + 1))).
Proof.
  intros Hplain. unfold _set_list_length.
  rewrite (search_pattern_plain _ Hplain).
  pose proof (scan_is_scan (plain_atoms prefix_str) obj) as Hscan.
  destruct (scan _ obj) as [m|]; simpl in Hscan.
  - destruct Hscan as [(k & Hin & Hk) Hall].
    apply re_match_num_plain_sound in Hk. split.
    + intros Hno. by destruct (Hno k m Hin).
    + intros _. exists m. split; [|done]. split; [by exists k|].
      intros k' n Hin' Hk'.
      apply re_match_num_plain_complete in Hk' as (n' & Hk' & Hle).
      pose proof (Hall _ _ Hin' Hk'). lia.
  - split; [done|]. intros (k & n & Hin & Hk).
    apply re_match_num_plain_complete in Hk as (n' & Hk & _).
    rewrite (Hscan k Hin) in Hk. done.
Qed.

Lemma set_list_length_plain_prefix_witness :
  _set_list_length "name" obj_issued = (obj_issued, inr 0) ∧
  max_index "name" obj_two_names 1 ∧
  _set_list_length "name" obj_two_names =
    (<["len_name" := VNum 2]> obj_two_names, inr 2).
Proof.
  destruct (set_list_length_plain_prefix "name" obj_issued eq_refl) as [H0 _].
  destruct (set_list_length_plain_prefix "name" obj_two_names eq_refl) as [_ H1].
  split.
  - apply H0. intros k n [v Hk] (ds & rest & Heq & _).
    unfold obj_issued in Hk. apply lookup_singleton_Some in Hk as [<- _].
    rewrite !append_cons in Heq. discriminate Heq.
  - destruct H1 as (m & Hmax & Heq).
    + exists "name_0_family"%string, 0.
      split; [vm_compute; by eexists|].
      exists "0"%string, "_family"%string. split_and!; [reflexivity|discriminate|reflexivity..].
    + assert (Hc : (_set_list_length "name" obj_two_names).2 = inr 2)
        by (vm_compute; reflexivity).
      rewrite Heq in Hc. cbn [snd] in Hc.
      assert (m = 1) as -> by (injection Hc; lia).
      split; [exact Hmax|exact Heq].
Defined.

(** C4, as stated, fails for the template prefix that
    [_decode_flattened_medication_administration] passes: no key is of
    the form [reasonNotGiven_{0}_coding_<digits>], yet the function
    writes an entry and returns 1, because the braces are read as a
    repetition count. *)
Lemma set_list_length_template_counterexample :
  (∀ k n, is_Some (obj_template !! k) → ¬ key_index template_prefix k n) ∧
  (_set_list_length template_prefix obj_template).2 = inr 1 ∧
  _set_list_length template_prefix obj_template ≠ (obj_template, inr 0).
Proof.
  split_and!.
  - intros k n [v Hk] (ds & rest & Heq & _).
    unfold obj_template in Hk. apply lookup_singleton_Some in Hk as [<- _].
    unfold template_prefix in Heq. rewrite !append_cons in Heq. simplify_eq.
  - vm_compute. reflexivity.
  - intros H. apply (f_equal snd) in H. vm_compute in H. discriminate.
Qed.

(** ** Running list-length inference twice *)

(** C8, as amended. For every mapping and every prefix whose derived
    key [len_<prefix>] is not matched by the search pattern of the
    prefix itself, running list-length inference on the mapping the
    first run leaves behind returns the same count and leaves the same
    mapping. The condition holds for every prefix made of ASCII
    characters that are no regular-expression metacharacters, and for
    the three unformatted templates the module passes. *)
Theorem set_list_length_idempotent prefix_str (obj : gmap string value) :
  string_forall is_plain prefix_str = true ∨
  prefix_str ∈ unformatted_templates ∨
  (∃ pat, search_pattern prefix_str = Some pat ∧
          re_match_num pat ("len_" +:+ prefix_str) = None) →
  _set_list_length prefix_str (_set_list_length prefix_str obj).1 =
  _set_list_length prefix_str obj.
Proof.
  intros H.
  assert (Hpat : ∃ pat, search_pattern prefix_str = Some pat ∧
                        re_match_num pat ("len_" +:+ prefix_str) = None).
  { destruct H as [Hplain|[Hin|H]]; [| |done].
    - exists (plain_atoms prefix_str).
      split; [by apply search_pattern_plain|apply len_key_no_match].
    - unfold unformatted_templates in Hin.
      repeat (apply elem_of_cons in Hin as [->|Hin];
              [eexists; split; vm_compute; reflexivity|]).
      by apply elem_of_nil in Hin. }
  destruct Hpat as (pat & Hpat & Hnone).
  unfold _set_list_length. rewrite Hpat.
  destruct (scan pat obj) as [m|] eqn:Hscan; simpl.
  - rewrite (scan_insert _ _ _ _ Hnone), Hscan.
    by rewrite insert_insert_eq.
  - by rewrite Hscan.
Qed.

Lemma set_list_length_idempotent_witness :
  ((_set_list_length "name" obj_two_names).1 !! "len_name"%string =
     Some (VNum 2) ∧
   _set_list_length "name" (_set_list_length "name" obj_two_names).1 =
   _set_list_length "name" obj_two_names) ∧
  ((_set_list_length template_prefix obj_template).1
     !! ("len_" +:+ template_prefix) = Some (VNum 1) ∧
   _set_list_length template_prefix
     (_set_list_length template_prefix obj_template).1 =
   _set_list_length template_prefix obj_template).
Proof.
  split; (split; [vm_compute; reflexivity|]).
  - apply (set_list_length_idempotent "name" obj_two_names).
    left. reflexivity.
  - apply (set_list_length_idempotent template_prefix obj_template).
    right. left. apply elem_of_cons. by left.
Defined.

(** C8, as stated, fails for a prefix with a repetition count: with the
    prefix [5{0}len] the pattern matches keys [len_<digits>], among them
    the derived key [len_5{0}len] itself, so the first run returns 1 and
    the second 6. *)
Lemma set_list_length_looping_counterexample :
  (_set_list_length looping_prefix obj_looping).2 = inr 1 ∧
  (_set_list_length looping_prefix
     (_set_list_length looping_prefix obj_looping).1).2 = inr 6 ∧
  _set_list_length looping_prefix (_set_list_length looping_prefix obj_looping).1 ≠
  _set_list_length looping_prefix obj_looping.
Proof.
  split_and!; [vm_compute; reflexivity..|].
  intros H. apply (f_equal snd) in H. vm_compute in H. discriminate.
Qed.

(** ** The list-length part of the decoders *)

Lemma infers_ret {A} (a : A) : infers_lengths (ret a).
Proof. intros obj. by exists obj, a. Qed.

Lemma infers_bind {A B} (m : M A) (f : A → M B) :
  infers_lengths m → (∀ a, infers_lengths (f a)) → infers_lengths (bind m f).
Proof.
  intros Hm Hf obj. unfold bind.
  destruct (Hm obj) as (obj1 & a & -> & H1).
  destruct (Hf a obj1) as (obj2 & b & -> & H2).
  exists obj2, b. split; [done|].
  intros k Hk. by rewrite H2, H1.
Qed.

Lemma infers_for {A} (xs : list A) (body : A → M unit) :
  Forall (λ x, infers_lengths (body x)) xs → infers_lengths (for_ xs body).
Proof.
  induction 1 as [|x xs Hx _ IH]; simpl.
  - apply infers_ret.
  - apply infers_bind; [done|]. intros _. apply IH.
Qed.

Lemma infers_for_range (count : Z) (body : nat → M unit) :
  (∀ i, infers_lengths (body i)) → infers_lengths (for_ (range count) body).
Proof. intros H. apply infers_for. by apply Forall_forall. Qed.

Lemma infers_set_list_length prefix_str :
  is_Some (search_pattern prefix_str) → infers_lengths (_set_list_length prefix_str).
Proof.
  intros [pat Hpat] obj. unfold _set_list_length. rewrite Hpat.
  destruct (scan pat obj) as [m|].
  - eexists _, _. split; [done|]. intros k Hk.
    apply lookup_insert_ne. intros <-. unfold is_len_key in Hk.
    rewrite !append_cons, append_nil in Hk. simpl in Hk. by destruct prefix_str.
  - by eexists _, _.
Qed.

Lemma infers_set_list_length_plain prefix_str :
  string_forall is_plain prefix_str = true →
  infers_lengths (_set_list_length prefix_str).
Proof.
  intros H. apply infers_set_list_length. by rewrite search_pattern_plain.
Qed.

Lemma pretty_N_go_plain x s :
  string_forall is_plain s = true →
  string_forall is_plain (pretty_N_go x s) = true.
Proof.
  revert s. induction (N.lt_wf_0 x) as [x _ IH]; intros s Hs.
  assert (x = 0 ∨ 0 < x)%N as [->|Hx] by lia.
  - by rewrite pretty_N_go_0.
  - rewrite pretty_N_go_step by done.
    apply IH; [by apply N.div_lt|]. simpl. rewrite Hs, andb_true_r.
    unfold pretty_N_char. by repeat case_match.
Qed.

Lemma plain_fmt i : string_forall is_plain (fmt i) = true.
Proof.
  unfold fmt, pretty, pretty_nat, pretty, pretty_N.
  case_decide; [done|]. by apply pretty_N_go_plain.
Qed.

Ltac solve_plain :=
  cbv zeta; rewrite ?string_forall_app, ?plain_fmt; reflexivity.

Ltac infers :=
  cbv zeta;
  repeat first
    [ apply infers_ret
    | apply infers_bind; [|intros ?]
    | apply infers_for_range; intros ?
    | apply infers_for; repeat apply Forall_cons; [..|apply Forall_nil]
    | apply infers_set_list_length_plain; solve_plain
    | apply infers_set_list_length; vm_compute; by eexists ].

Lemma base_init_infers : infers_lengths _base_init.
Proof. unfold _base_init. infers. Qed.

Lemma contained_med_resource_init_infers :
  infers_lengths _contained_med_resource_init.
Proof. unfold _contained_med_resource_init. infers. Qed.

Ltac infers_lists :=
  repeat first
    [ apply infers_bind; [apply base_init_infers|intros ?]
    | apply infers_bind; [apply contained_med_resource_init_infers|intros ?]
    | progress infers ].

Lemma observation_lists_infers : infers_lengths observation_lists.
Proof. unfold observation_lists. infers_lists. Qed.

Lemma medication_administration_lists_infers :
  infers_lengths medication_administration_lists.
Proof. unfold medication_administration_lists. infers_lists. Qed.

Lemma medication_order_lists_infers : infers_lengths medication_order_lists.
Proof. unfold medication_order_lists. infers_lists. Qed.

Lemma medication_statement_lists_infers :
  infers_lengths medication_statement_lists.
Proof. unfold medication_statement_lists. infers_lists. Qed.

Lemma condition_lists_infers : infers_lengths condition_lists.
Proof. unfold condition_lists. infers_lists. Qed.

Lemma procedure_lists_infers : infers_lengths procedure_lists.
Proof. unfold procedure_lists. infers_lists. Qed.

Lemma patient_lists_infers : infers_lengths patient_lists.
Proof. unfold patient_lists. infers_lists. Qed.

(** ** Stepping through the timestamp promotion of a decoder *)

Section steps.
Context {B : Type}.
Implicit Types (obj : gmap string value).

Lemma bind_has_Some k (f : bool → M B) obj v :
  obj !! k = Some v → bind (dict_has k) f obj = f true obj.
Proof.
  intros H. unfold bind, dict_has.
  by rewrite bool_decide_eq_true_2 by (by rewrite H).
Qed.

Lemma bind_has_None k (f : bool → M B) obj :
  obj !! k = None → bind (dict_has k) f obj = f false obj.
Proof.
  intros H. unfold bind, dict_has.
  by rewrite bool_decide_eq_false_2 by (rewrite H; by intros [? [=]]).
Qed.

Lemma bind_get_Some k (f : value → M B) obj v :
  obj !! k = Some v → bind (dict_get k) f obj = f v obj.
Proof. intros H. unfold bind, dict_get. by rewrite H. Qed.

Lemma bind_set k v (f : unit → M B) obj :
  bind (dict_set k v) f obj = f tt (<[k := v]> obj).
Proof. done. Qed.

Lemma bind_ret {A} (a : A) (f : A → M B) obj : bind (ret a) f obj = f a obj.
Proof. done. Qed.

Lemma bind_lift_inr {A} (a : A) (f : A → M B) obj :
  bind (lift (inr a)) f obj = f a obj.
Proof. done. Qed.

Lemma bind_lift_inl {A} e (f : A → M B) obj :
  bind (lift (inl e)) f obj = (obj, inl e).
Proof. done. Qed.

Lemma bind_bind {A A'} (m : M A) (f : A → M A') (g : A' → M B) obj :
  bind (bind m f) g obj = bind m (λ a, bind (f a) g) obj.
Proof. unfold bind. by destruct (m obj) as [obj1 [e|a]]. Qed.

Lemma bind_when_true (m : M unit) (f : unit → M B) obj :
  bind (when true m) f obj = bind m f obj.
Proof. done. Qed.

Lemma bind_when_false (m : M unit) (f : unit → M B) obj :
  bind (when false m) f obj = f tt obj.
Proof. done. Qed.
End steps.

Lemma py_contains_dict_Some key (d : gmap string value) x :
  d !! key = Some x → py_contains key (VDict d) = inr true.
Proof. intros H. simpl. by rewrite bool_decide_eq_true_2 by (by rewrite H). Qed.

Lemma py_contains_dict_None key (d : gmap string value) :
  d !! key = None → py_contains key (VDict d) = inr false.
Proof.
  intros H. simpl.
  by rewrite bool_decide_eq_false_2 by (rewrite H; by intros [? [=]]).
Qed.

Lemma py_getitem_dict_Some key (d : gmap string value) x :
  d !! key = Some x → py_getitem (VDict d) key = inr x.
Proof. intros H. simpl. by rewrite H. Qed.

Lemma py_getitem_dict_None key (d : gmap string value) :
  d !! key = None → py_getitem (VDict d) key = inl (KeyError key).
Proof. intros H. simpl. by rewrite H. Qed.

Ltac lookup_tac :=
  rewrite ?lookup_insert_ne by done; eassumption.

Ltac step :=
  first
    [ rewrite bind_when_true
    | rewrite bind_when_false
    | rewrite bind_bind
    | rewrite bind_set
    | rewrite bind_ret
    | rewrite bind_lift_inr
    | rewrite bind_lift_inl
    | erewrite bind_has_Some by lookup_tac
    | rewrite bind_has_None by lookup_tac
    | erewrite bind_get_Some by lookup_tac
    | erewrite py_contains_dict_Some by eassumption
    | rewrite py_contains_dict_None by assumption
    | erewrite py_getitem_dict_Some by eassumption
    | rewrite py_getitem_dict_None by assumption ].

Ltac steps := repeat (step; cbv beta).

Ltac unfold_keys :=
  unfold _KEY_DATE_TIME, _KEY_END_DATE_TIME, _KEY_START, _KEY_END,
    KEY_END_DATE_TIME in *.

(** ** The Observation decoder and the end of a period *)

(** C1 fails on the code. For every flattened Observation record whose
    [effectivePeriod] entry is a mapping that contains an [end] value,
    the decoder raises [NameError] at the assignment to
    [obj[KEY_END_DATE_TIME]], and the entry [end_date_time] of the
    record is left as it was. *)
Theorem observation_period_end_raises (obj ep : gmap string value) e :
  obj !! "effectivePeriod" = Some (VDict ep) →
  ep !! "end" = Some e →
  ∃ obj',
    _decode_flattened_observation obj =
      (obj', inl (NameError "KEY_END_DATE_TIME")) ∧
    obj' !! _KEY_END_DATE_TIME = obj !! _KEY_END_DATE_TIME.
Proof.
  intros Hep Hend. unfold _decode_flattened_observation. cbv zeta. unfold_keys.
  destruct (obj !! "effectiveDateTime") as [edt|] eqn:Hedt;
    destruct (ep !! "start") as [start|] eqn:Hstart; steps;
    (eexists; split; [reflexivity|]);
    by rewrite ?lookup_insert_ne by done.
Qed.

Lemma observation_period_end_raises_witness :
  ∃ obj',
    _decode_flattened_observation obj_observation_period =
      (obj', inl (NameError "KEY_END_DATE_TIME")) ∧
    obj' !! _KEY_END_DATE_TIME = obj_observation_period !! _KEY_END_DATE_TIME.
Proof.
  apply (observation_period_end_raises obj_observation_period period_end_only
           (VStr "2020-03-15")); reflexivity.
Defined.

(** ** The Condition decoder *)

Ltac run_lists lem :=
  match goal with
  | |- context [?lists ?o] =>
      lazymatch type of (lists o) with
      | (gmap string value * (exn + unit))%type =>
          let obj' := fresh "obj'" in
          let Hfr := fresh "Hfr" in
          destruct (lem o) as (obj' & [] & -> & Hfr)
      end
  end.

Ltac lookups :=
  cbn [fst snd];
  repeat first
    [ rewrite lookup_insert_eq
    | rewrite lookup_insert_ne by done ].

(** C5, as amended. For every flattened Condition record whose
    [onsetPeriod] is a mapping with a [start] value, with or without an
    [onsetDateTime], the decoder sets [date_time] to the value stored
    under [start], as it is stored: the period wins over
    [onsetDateTime], and nothing is parsed. The normalisation pass that
    runs before the decoder looks at the values of the record itself
    only, so it hands the period on as it is, and a [start] that is a
    string is a string in [date_time]. When the record has no
    [abatementPeriod], or one that is a mapping with an [end] value, the
    decoder returns. *)
Theorem condition_period_start_wins (obj op : gmap string value) start :
  obj !! "onsetPeriod" = Some (VDict op) →
  op !! "start" = Some start →
  (_decode_flattened_condition obj).1 !! _KEY_DATE_TIME = Some start ∧
  ((obj !! "abatementPeriod" = None ∨
    ∃ ap e, obj !! "abatementPeriod" = Some (VDict ap) ∧ ap !! "end" = Some e) →
   (_decode_flattened_condition obj).2 = inr tt) ∧
  (∀ run obj',
     _convert_datetimes run obj = inr obj' →
     obj' !! "onsetPeriod" = Some (VDict op) ∧
     (_decode_flattened_condition obj').1 !! _KEY_DATE_TIME = Some start).
Proof.
  intros Hop Hstart.
  assert (Hdec : ∀ obj : gmap string value,
            obj !! "onsetPeriod" = Some (VDict op) →
            (_decode_flattened_condition obj).1 !! _KEY_DATE_TIME = Some start ∧
            ((obj !! "abatementPeriod" = None ∨
              ∃ ap e, obj !! "abatementPeriod" = Some (VDict ap) ∧
                      ap !! "end" = Some e) →
             (_decode_flattened_condition obj).2 = inr tt)).
  { clear obj Hop. intros obj Hop.
    unfold _decode_flattened_condition. cbv zeta. unfold_keys.
    destruct (obj !! "onsetDateTime") as [odt|] eqn:Hodt;
      destruct (obj !! "abatementDateTime") as [adt|] eqn:Hadt;
      destruct (obj !! "abatementPeriod") as [[| | | | | |ap]|] eqn:Hap;
      try destruct (ap !! "end") as [e|] eqn:Hend;
      steps; cbn [py_getitem]; steps;
      try run_lists condition_lists_infers;
      (split;
       [ cbn [fst]; rewrite ?Hfr by done; lookups; done
       | try done; intros [[=]|(? & ? & [=] & ?)]; simplify_eq ]). }
  destruct (Hdec obj Hop) as [Hdate Hret].
  split_and!; [exact Hdate|exact Hret|].
  intros run obj' H'.
  pose proof (convert_datetimes_entry run obj "onsetPeriod" (VDict op)
                (VDict op) Hop eq_refl) as He.
  rewrite H' in He. split; [exact He|]. by apply Hdec.
Qed.

Lemma condition_period_start_wins_witness :
  ((_decode_flattened_condition obj_condition_both).1 !! _KEY_DATE_TIME =
     Some (VStr "2019-01-01") ∧
   (_decode_flattened_condition obj_condition_both).2 = inr tt) ∧
  ((_decode_flattened_condition obj_condition_period_only).1 !! _KEY_DATE_TIME =
     Some (VStr "2019-01-01") ∧
   (_decode_flattened_condition obj_condition_period_only).2 = inr tt ∧
   ∀ obj',
     _convert_datetimes (run_const tv_half_hour) obj_condition_period_only =
       inr obj' →
     obj' !! "onsetPeriod" = Some (VDict period_start_only) ∧
     (_decode_flattened_condition obj').1 !! _KEY_DATE_TIME =
       Some (VStr "2019-01-01")).
Proof.
  destruct (condition_period_start_wins obj_condition_both period_start_only
              (VStr "2019-01-01") eq_refl eq_refl) as (Hd1 & Hr1 & _).
  destruct (condition_period_start_wins obj_condition_period_only
              period_start_only (VStr "2019-01-01") eq_refl eq_refl)
    as (Hd2 & Hr2 & Hn2).
  split_and!.
  - exact Hd1.
  - apply Hr1. left. reflexivity.
  - exact Hd2.
  - apply Hr2. left. reflexivity.
  - apply Hn2.
Defined.

(** C5, as stated, fails: [date_time] is not the parsed start value. For
    a Condition resource whose [onsetPeriod] has the start
    ["2019-01-01"] and which has no [onsetDateTime], the normalisation
    pass, which turns that string into a datetime where it is a value of
    the record itself, leaves it alone inside the period, and
    [_process_resource] returns a record whose [date_time] is the string
    ["2019-01-01"], not the datetime of that day. *)
Lemma condition_period_start_unparsed_counterexample :
  obj_condition_period_only !! "onsetDateTime"%string = None ∧
  _convert_datetimes (run_const tv_half_hour)
    {[ "start"%string := VStr "2019-01-01" ]} =
    inr {[ "start"%string := VDateTime (mk_datetime 2019 1 1 0 0 0 0 None) ]} ∧
  ∃ r,
    _process_resource (run_const tv_half_hour) flatten_flat json_loads_fail
      (VDict obj_condition_period_only) = inr (Some r) ∧
    r !! _KEY_DATE_TIME = Some (VStr "2019-01-01") ∧
    r !! _KEY_DATE_TIME ≠ Some (VDateTime (mk_datetime 2019 1 1 0 0 0 0 None)).
Proof.
  split_and!; [reflexivity|vm_compute; reflexivity|].
  exists (_decode_flattened_condition obj_condition_period_only).1.
  assert (Hd : (_decode_flattened_condition obj_condition_period_only).1
                 !! _KEY_DATE_TIME = Some (VStr "2019-01-01"))
    by (vm_compute; reflexivity).
  split_and!; [vm_compute; reflexivity|exact Hd|].
  rewrite Hd. discriminate.
Qed.

(** C9. The Condition decoder subscripts [onsetPeriod] with [start] and
    [abatementPeriod] with [end] without testing for the key: for every
    flattened Condition record whose [onsetPeriod] is a mapping without
    [start], decoding raises [KeyError]; so it does for every record
    whose [abatementPeriod] is a mapping without [end] (the
    [onsetPeriod], if present, being a mapping). The Procedure and
    Observation decoders test for the keys first: on a record whose
    period is a mapping with neither key they return, and [date_time]
    is what the direct timestamp field gave, or is left as it was. *)
Theorem condition_period_unguarded :
  (∀ (obj op : gmap string value),
     obj !! "onsetPeriod" = Some (VDict op) →
     op !! "start" = None →
     (_decode_flattened_condition obj).2 = inl (KeyError "start")) ∧
  (∀ (obj ap : gmap string value),
     obj !! "abatementPeriod" = Some (VDict ap) →
     ap !! "end" = None →
     (obj !! "onsetPeriod" = None ∨ ∃ op, obj !! "onsetPeriod" = Some (VDict op)) →
     ∃ key, (_decode_flattened_condition obj).2 = inl (KeyError key)) ∧
  (∀ (obj pp : gmap string value),
     obj !! "performedPeriod" = Some (VDict pp) →
     pp !! "start" = None →
     pp !! "end" = None →
     (_decode_flattened_procedure obj).2 = inr tt ∧
     (_decode_flattened_procedure obj).1 !! _KEY_DATE_TIME =
       match obj !! "performedDateTime" with
       | Some pdt => Some pdt
       | None => obj !! _KEY_DATE_TIME
       end) ∧
  (∀ (obj ep : gmap string value),
     obj !! "effectivePeriod" = Some (VDict ep) →
     ep !! "start" = None →
     ep !! "end" = None →
     (_decode_flattened_observation obj).2 = inr tt ∧
     (_decode_flattened_observation obj).1 !! _KEY_DATE_TIME =
       match obj !! "effectiveDateTime" with
       | Some edt => Some edt
       | None => obj !! _KEY_DATE_TIME
       end).
Proof.
  split_and!.
  - intros obj op Hop Hstart.
    unfold _decode_flattened_condition. cbv zeta. unfold_keys.
    destruct (obj !! "onsetDateTime") as [odt|] eqn:Hodt;
      destruct (obj !! "abatementDateTime") as [adt|] eqn:Hadt;
      steps; done.
  - intros obj ap Hap Hend Hop.
    unfold _decode_flattened_condition. cbv zeta. unfold_keys.
    destruct Hop as [Hop|[op Hop]];
      try destruct (op !! "start") as [start|] eqn:Hstart;
      destruct (obj !! "onsetDateTime") as [odt|] eqn:Hodt;
      destruct (obj !! "abatementDateTime") as [adt|] eqn:Hadt;
      steps; by eexists.
  - intros obj pp Hpp Hstart Hend.
    unfold _decode_flattened_procedure. cbv zeta. unfold_keys.
    destruct (obj !! "performedDateTime") as [pdt|] eqn:Hpdt;
      steps; run_lists procedure_lists_infers;
      (split; [done|]); cbn [fst]; rewrite Hfr by done; lookups; done.
  - intros obj ep Hep Hstart Hend.
    unfold _decode_flattened_observation. cbv zeta. unfold_keys.
    destruct (obj !! "effectiveDateTime") as [edt|] eqn:Hedt;
      steps; run_lists observation_lists_infers;
      (split; [done|]); cbn [fst]; rewrite Hfr by done; lookups; done.
Qed.

Lemma condition_period_unguarded_witness :
  (_decode_flattened_condition obj_condition_no_start).2 = inl (KeyError "start") ∧
  (∃ key, (_decode_flattened_condition obj_condition_no_end).2 = inl (KeyError key)) ∧
  (_decode_flattened_procedure obj_procedure_empty_period).2 = inr tt ∧
  (_decode_flattened_observation obj_observation_empty_period).2 = inr tt.
Proof.
  destruct condition_period_unguarded as (H1 & H2 & H3 & H4).
  split_and!.
  - apply (H1 obj_condition_no_start period_end_only); reflexivity.
  - apply (H2 obj_condition_no_end period_start_only);
      [reflexivity|reflexivity|left; reflexivity].
  - apply (H3 obj_procedure_empty_period ∅); reflexivity.
  - apply (H4 obj_observation_empty_period ∅); reflexivity.
Defined.

(** ** The reason codings of MedicationAdministration *)

Lemma keeps_ret k {A} (a : A) : keeps k (ret a).
Proof. done. Qed.

Lemma keeps_lift k {A} (r : exn + A) : keeps k (lift r).
Proof. done. Qed.

Lemma keeps_dict_has k k' : keeps k (dict_has k').
Proof. done. Qed.

Lemma keeps_dict_get k k' : keeps k (dict_get k').
Proof. done. Qed.

Lemma keeps_dict_set k k' v : k' ≠ k → keeps k (dict_set k' v).
Proof. intros H obj. by apply lookup_insert_ne. Qed.

Lemma keeps_bind k {A B} (m : M A) (f : A → M B) :
  keeps k m → (∀ a, keeps k (f a)) → keeps k (bind m f).
Proof.
  intros Hm Hf obj. unfold bind. specialize (Hm obj).
  destruct (m obj) as [obj1 [e|a]]; [done|].
  by rewrite Hf.
Qed.

Lemma keeps_when k b (m : M unit) : keeps k m → keeps k (when b m).
Proof. by destruct b. Qed.

Lemma keeps_for k {A} (xs : list A) (body : A → M unit) :
  Forall (λ x, keeps k (body x)) xs → keeps k (for_ xs body).
Proof.
  induction 1 as [|x xs Hx _ IH]; simpl; [done|].
  apply keeps_bind; [done|]. intros _. apply IH.
Qed.

Lemma keeps_for_range k (count : Z) (body : nat → M unit) :
  (∀ i, keeps k (body i)) → keeps k (for_ (range count) body).
Proof. intros H. apply keeps_for. by apply Forall_forall. Qed.

Lemma keeps_set_list_length k prefix_str :
  "len_" +:+ prefix_str ≠ k → keeps k (_set_list_length prefix_str).
Proof.
  intros Hne obj. unfold _set_list_length.
  destruct (search_pattern prefix_str) as [pat|]; [|done].
  destruct (scan pat obj) as [m|]; [|done].
  by apply lookup_insert_ne.
Qed.

(** The text of an index begins with a plain character. *)
Lemma fmt_head i s : fmt i ≠ String "{" s.
Proof.
  intros H. pose proof (plain_fmt i) as Hp. rewrite H in Hp. done.
Qed.

(** Two keys differ: compare them character by character; where an
    index meets a brace, use [fmt_head]. *)
Ltac keys_differ :=
  let H := fresh "H" in
  intros H; rewrite ?append_assoc in H; rewrite ?append_cons, ?append_nil in H;
  first
    [ discriminate H
    | by simplify_eq
    | match type of H with
      | context [fmt ?i] =>
          let Hf := fresh "Hf" in
          destruct (fmt i) as [|? ?] eqn:Hf;
          rewrite ?append_cons, ?append_nil in H;
          [by simplify_eq|simplify_eq; by eapply fmt_head]
      end ].

Ltac keeps_tac :=
  cbv zeta;
  repeat first
    [ apply keeps_ret
    | apply keeps_lift
    | apply keeps_dict_has
    | apply keeps_dict_get
    | apply keeps_when
    | apply keeps_bind; [|intros ?]
    | apply keeps_for_range; intros ?
    | apply keeps_for; repeat apply Forall_cons; [..|apply Forall_nil]
    | apply keeps_dict_set; keys_differ
    | apply keeps_set_list_length; keys_differ ].

(** C7 fails on the code. For every record and every index [i], the
    MedicationAdministration decoder leaves the entry
    [len_reasonNotGiven_<i>_coding] as it was (and likewise
    [len_reasonGiven_<i>_coding]): the prefix it passes in the loop is
    the template [reasonNotGiven_{0}_coding], never formatted with the
    index. So on a record with one [reasonNotGiven] element that
    carries a coding the decoder returns with [len_reasonNotGiven]
    equal to 1 and without [len_reasonNotGiven_0_coding], whereas the
    Condition decoder, which formats its prefix, writes
    [len_bodySite_0_coding] on the analogous record. *)
Theorem medication_administration_reason_coding :
  (∀ i, keeps ("len_reasonNotGiven_" +:+ fmt i +:+ "_coding")
          _decode_flattened_medication_administration) ∧
  (∀ i, keeps ("len_reasonGiven_" +:+ fmt i +:+ "_coding")
          _decode_flattened_medication_administration) ∧
  (_decode_flattened_medication_administration obj_reason_not_given).2 = inr tt ∧
  (_decode_flattened_medication_administration obj_reason_not_given).1
    !! "len_reasonNotGiven" = Some (VNum 1) ∧
  (_decode_flattened_medication_administration obj_reason_not_given).1
    !! "len_reasonNotGiven_0_coding" = None ∧
  (_decode_flattened_condition obj_body_site).1
    !! "len_bodySite_0_coding" = Some (VNum 1).
Proof.
  split_and!; [| |vm_compute; reflexivity..].
  - intros i.
    unfold _decode_flattened_medication_administration,
      medication_administration_lists, _base_init,
      _contained_med_resource_init, KEY_END_DATE_TIME.
    unfold_keys. keeps_tac.
  - intros i.
    unfold _decode_flattened_medication_administration,
      medication_administration_lists, _base_init,
      _contained_med_resource_init, KEY_END_DATE_TIME.
    unfold_keys. keeps_tac.
Qed.

(** ** Unknown resource types *)

Lemma is_str_false t rt : rt ≠ VStr t → is_str t rt = false.
Proof.
  intros H. destruct rt; try done. simpl.
  destruct (String.eqb_spec t s) as [->|]; done.
Qed.

Section dispatch_facts.
Variable run : string → list TimeValue.
Variable flatten : gmap string value → gmap string value.
Variable json_loads : string → string + value.

Abbreviation process := (_process_resource run flatten json_loads).
Abbreviation loop := (bundle_loop run flatten json_loads).

Lemma process_resource_unknown (d : gmap string value) rt :
  d !! "resourceType" = Some rt →
  (∀ t, t ∈ supported_types → rt ≠ VStr t) →
  process (VDict d) =
    res_map (λ _, None) (_convert_datetimes run (flatten d)).
Proof.
  intros Hd Hrt. unfold _process_resource, _STR_RESOURCE_TYPE.
  destruct (_convert_datetimes run (flatten d)) as [e|fo]; [done|].
  cbn [res_bind res_map]. case_bool_decide; [|done].
  rewrite Hd.
  rewrite !is_str_false; [done|apply Hrt; unfold supported_types..].
  all: repeat first [by left|right].
Qed.

(** The loop keeps the results that are not absent, in input order,
    behind what it has collected so far. *)
Lemma bundle_loop_omap elts (rs : list (option (gmap string value))) acc :
  Forall2 (λ elt r, process elt = inr r) elts rs →
  loop elts acc = inr (acc ++ omap id rs).
Proof.
  intros H. revert acc.
  induction H as [|elt r elts rs Hr _ IH]; intros acc; simpl.
  - by rewrite app_nil_r.
  - rewrite Hr. cbn [res_bind]. destruct r as [r|]; simpl.
    + rewrite IH. by rewrite <- app_assoc.
    + apply IH.
Qed.

Lemma bundle_loop_skip before elt after acc :
  process elt = inr None →
  loop (before ++ elt :: after) acc = loop (before ++ after) acc.
Proof.
  intros Helt. revert acc.
  induction before as [|b before IH]; intros acc; simpl.
  - by rewrite Helt.
  - destruct (process b) as [e|[r|]]; simpl; [done|apply IH..].
Qed.
End dispatch_facts.

Section bundle_facts.
Variable run : string → list TimeValue.
Variable flatten : gmap string value → gmap string value.
Variable json_loads : string → string + value.

(** The loop stops at the first record that raises. *)
Lemma bundle_loop_raises before elt after acc e :
  Forall (λ x, ∃ r, _process_resource run flatten json_loads x = inr r) before →
  _process_resource run flatten json_loads elt = inl e →
  bundle_loop run flatten json_loads (before ++ elt :: after) acc = inl e.
Proof.
  intros Hbefore Helt. revert acc.
  induction Hbefore as [|b before [r Hr] _ IH]; intros acc; simpl.
  - by rewrite Helt.
  - rewrite Hr. cbn [res_bind]. destruct r; apply IH.
Qed.
End bundle_facts.

(** C3, as amended. For every record whose [resourceType] is present
    and is none of the seven supported types: when the normalisation of
    its flattened form returns, [_process_resource] returns absent, and
    a bundle that holds the record decodes to what it decodes to
    without it, the results of the other records that are not absent,
    in input order. When the normalisation raises, [_process_resource]
    raises the same exception, and so does every bundle in which the
    records before it decode. *)
Theorem unknown_resource_type_absent
    (run : string → list TimeValue)
    (flatten : gmap string value → gmap string value)
    (json_loads : string → string + value)
    (d : gmap string value) rt :
  d !! "resourceType" = Some rt →
  (∀ t, t ∈ supported_types → rt ≠ VStr t) →
  (∀ flattened_obj,
     _convert_datetimes run (flatten d) = inr flattened_obj →
     _process_resource run flatten json_loads (VDict d) = inr None ∧
     (∀ before after acc,
        bundle_loop run flatten json_loads (before ++ VDict d :: after) acc =
        bundle_loop run flatten json_loads (before ++ after) acc) ∧
     (∀ name s before after rs,
        json_loads s = inr (VList (before ++ VDict d :: after)) →
        Forall2 (λ elt r, _process_resource run flatten json_loads elt = inr r)
          (before ++ after) rs →
        _decode_bundle run flatten json_loads name (VStr s) =
          ([], inr (omap id rs)))) ∧
  (∀ e,
     _convert_datetimes run (flatten d) = inl e →
     _process_resource run flatten json_loads (VDict d) = inl e ∧
     (∀ name s before after,
        json_loads s = inr (VList (before ++ VDict d :: after)) →
        Forall (λ x, ∃ r, _process_resource run flatten json_loads x = inr r)
          before →
        _decode_bundle run flatten json_loads name (VStr s) = ([], inl e))).
Proof.
  intros Hd Hrt.
  pose proof (process_resource_unknown run flatten json_loads d rt Hd Hrt) as Hp.
  split.
  - intros fo Hfo. rewrite Hfo in Hp. cbn [res_map] in Hp. split_and!.
    + done.
    + intros before after acc. by apply bundle_loop_skip.
    + intros name s before after rs Hs Hrs. unfold _decode_bundle. rewrite Hs.
      rewrite (bundle_loop_skip run flatten json_loads before (VDict d) after [] Hp).
      by rewrite (bundle_loop_omap run flatten json_loads (before ++ after) rs []).
  - intros e He. rewrite He in Hp. cbn [res_map] in Hp. split; [done|].
    intros name s before after Hs Hbefore. unfold _decode_bundle. rewrite Hs.
    by rewrite (bundle_loop_raises run flatten json_loads before (VDict d) after [] e).
Qed.

Lemma unknown_resource_type_absent_witness :
  _process_resource (run_const tv_half_hour) flatten_flat
    (json_loads_const
       (VList ([VDict obj_order_resource] ++
               VDict obj_unsupported :: [VDict obj_order_resource])))
    (VDict obj_unsupported) = inr None ∧
  ∃ r,
    _process_resource (run_const tv_half_hour) flatten_flat
      (json_loads_const
         (VList ([VDict obj_order_resource] ++
                 VDict obj_unsupported :: [VDict obj_order_resource])))
      (VDict obj_order_resource) = inr (Some r) ∧
    _decode_bundle (run_const tv_half_hour) flatten_flat
      (json_loads_const
         (VList ([VDict obj_order_resource] ++
                 VDict obj_unsupported :: [VDict obj_order_resource])))
      VNone (VStr "payload") = ([], inr [r; r]).
Proof.
  assert (Hrt : ∀ t, t ∈ supported_types → VStr "Unsupported" ≠ VStr t).
  { intros t Ht [= <-]. unfold supported_types in Ht.
    repeat (apply elem_of_cons in Ht as [Ht|Ht]; [discriminate Ht|]).
    by apply elem_of_nil in Ht. }
  destruct (unknown_resource_type_absent (run_const tv_half_hour)
              flatten_flat
              (json_loads_const
                 (VList ([VDict obj_order_resource] ++
                         VDict obj_unsupported :: [VDict obj_order_resource])))
              obj_unsupported (VStr "Unsupported") eq_refl Hrt) as [Hret _].
  destruct (Hret obj_unsupported eq_refl) as (Hnone & _ & Hbundle).
  split; [exact Hnone|].
  exists (_decode_flattened_medication_order obj_order_normalised).1.
  assert (Hr : _process_resource (run_const tv_half_hour) flatten_flat
                 (json_loads_const
                    (VList ([VDict obj_order_resource] ++
                            VDict obj_unsupported :: [VDict obj_order_resource])))
                 (VDict obj_order_resource) =
               inr (Some (_decode_flattened_medication_order
                            obj_order_normalised).1))
    by (vm_compute; reflexivity).
  split; [exact Hr|].
  apply (Hbundle VNone "payload"%string [VDict obj_order_resource]
           [VDict obj_order_resource] [Some _; Some _]); [reflexivity|].
  repeat constructor; exact Hr.
Defined.

(** C3, as stated, fails: a record of an unknown type whose flattened
    form holds a date that is no calendar date does not decode to
    absent. The normalisation pass runs before the type is looked at and
    raises [ValueError]; in a bundle the exception is not caught, so the
    record is not skipped and the result of the record before it is
    lost. *)
Lemma unknown_resource_type_raises_counterexample :
  obj_unsupported_bad_date !! "resourceType"%string = Some (VStr "Unsupported") ∧
  (∀ t, t ∈ supported_types → VStr "Unsupported" ≠ VStr t) ∧
  _process_resource (run_const tv_half_hour) flatten_flat json_loads_fail
    (VDict obj_unsupported_bad_date) = inl ValueError ∧
  _process_resource (run_const tv_half_hour) flatten_flat json_loads_fail
    (VDict obj_unsupported_bad_date) ≠ inr None ∧
  (∃ r, _process_resource (run_const tv_half_hour) flatten_flat
          (json_loads_const
             (VList [VDict obj_order_resource; VDict obj_unsupported_bad_date]))
          (VDict obj_order_resource) = inr (Some r)) ∧
  _decode_bundle (run_const tv_half_hour) flatten_flat
    (json_loads_const
       (VList [VDict obj_order_resource; VDict obj_unsupported_bad_date]))
    VNone (VStr "payload") = ([], inl ValueError).
Proof.
  assert (H : _process_resource (run_const tv_half_hour) flatten_flat
                json_loads_fail (VDict obj_unsupported_bad_date) = inl ValueError)
    by (vm_compute; reflexivity).
  split_and!.
  - reflexivity.
  - intros t Ht [= <-]. unfold supported_types in Ht.
    repeat (apply elem_of_cons in Ht as [Ht|Ht]; [discriminate Ht|]).
    by apply elem_of_nil in Ht.
  - exact H.
  - rewrite H. discriminate.
  - exists (_decode_flattened_medication_order obj_order_normalised).1.
    vm_compute. reflexivity.
  - vm_compute. reflexivity.
Qed.

(** ** Payloads that are not JSON *)

(** C6 fails on the code for a Patient payload. For every payload
    string that [json.loads] rejects: [_decode_bundle] prints its report
    and returns the empty list, and so does [decode_top_level_obj] for a
    bundle envelope; but [_decode_flattened_patient] raises
    [AttributeError], because its handler names
    [json.decoder.JSONDecoderError], which does not exist, and
    [decode_top_level_obj] passes the exception on, with nothing
    printed. *)
Theorem unparseable_payload
    (run : string → list TimeValue)
    (flatten : gmap string value → gmap string value)
    (json_loads : string → string + value) s e :
  json_loads s = inl e →
  (∀ name,
     _decode_bundle run flatten json_loads name (VStr s) =
       ([bundle_report e], inr [])) ∧
  (∀ (d : gmap string value) t,
     d !! "resultType" = Some (VStr t) →
     t = "FhirBundleCursorStu2"%string ∨ t = "FhirBundleCursorStu3"%string →
     d !! "result" = Some (VStr s) →
     decode_top_level_obj run flatten json_loads (VDict d) =
       ([bundle_report e], inr (VList []))) ∧
  _decode_flattened_patient run flatten json_loads (VStr s) =
    inl (AttributeError "JSONDecoderError") ∧
  (∀ (d : gmap string value),
     d !! "resultType" = Some (VStr "Patient") →
     d !! "result" = Some (VStr s) →
     decode_top_level_obj run flatten json_loads (VDict d) =
       ([], inl (AttributeError "JSONDecoderError"))).
Proof.
  intros Hs.
  assert (Hb : ∀ name, _decode_bundle run flatten json_loads name (VStr s) =
                       ([bundle_report e], inr []))
    by (intros name; unfold _decode_bundle; by rewrite Hs).
  assert (Hp : _decode_flattened_patient run flatten json_loads (VStr s) =
               inl (AttributeError "JSONDecoderError"))
    by (unfold _decode_flattened_patient; by rewrite Hs).
  split_and!; [done| |done|].
  - intros d t Ht Hcases Hres. unfold decode_top_level_obj. cbv zeta.
    rewrite Ht, Hres, Hb. by destruct Hcases as [-> | ->].
  - intros d Ht Hres. unfold decode_top_level_obj. cbv zeta.
    rewrite Ht, Hres. cbn [is_str String.eqb Ascii.eqb Bool.eqb].
    by rewrite Hp.
Qed.

Lemma unparseable_payload_witness :
  decode_top_level_obj (run_const tv_half_hour) flatten_flat json_loads_fail
    (VDict envelope_patient) = ([], inl (AttributeError "JSONDecoderError")).
Proof.
  apply (proj2 (proj2 (proj2
           (unparseable_payload (run_const tv_half_hour) flatten_flat
              json_loads_fail "{not json"
              "Expecting value: line 1 column 1 (char 0)" eq_refl))));
    reflexivity.
Defined.

(** * Further properties of the normalisation pass *)

Lemma first_error_None_inv {A B} (f : A → exn + B) (l : list A) x :
  first_error (f <$> l) = None → x ∈ l → ∃ b, f x = inr b.
Proof.
  induction l as [|a l IH]; simpl; intros H Hx; [by apply elem_of_nil in Hx|].
  destruct (f a) as [e|b] eqn:Hfa; [done|].
  apply elem_of_cons in Hx as [->|Hx]; [by exists b|by apply IH].
Qed.

Lemma convert_datetimes_inr run (obj obj' : gmap string value) :
  _convert_datetimes run obj = inr obj' →
  ∀ k, match obj !! k with
       | Some v => ∃ r, convert_value run v = inr r ∧ obj' !! k = Some r
       | None => obj' !! k = None
       end.
Proof.
  unfold _convert_datetimes.
  destruct (first_error _) as [e|] eqn:Herr; [done|]. intros [= <-] k.
  rewrite lookup_fmap. destruct (obj !! k) as [v|] eqn:Hk; [|done].
  destruct (first_error_None_inv _ _ (k, v) Herr) as [r Hr];
    [by apply elem_of_map_to_list|].
  simpl in Hr. exists r. split; [done|]. simpl. unfold converted. by rewrite Hr.
Qed.

Lemma convert_datetimes_inl run (obj : gmap string value) k v e :
  obj !! k = Some v → convert_value run v = inl e →
  ∃ e', _convert_datetimes run obj = inl e'.
Proof.
  intros Hk Hv. destruct (_convert_datetimes run obj) as [e'|obj'] eqn:H; [by exists e'|].
  pose proof (convert_datetimes_inr run obj obj' H k) as Hinr.
  rewrite Hk in Hinr. destruct Hinr as (r & Hr & _). congruence.
Qed.

Lemma datetime_new_inv y mo d hh mi ss us tz dt :
  datetime_new y mo d hh mi ss us tz = inr dt →
  dt = mk_datetime y mo d hh mi ss us tz ∧
  1 ≤ y ≤ 9999 ∧ 1 ≤ mo ≤ 12 ∧ 1 ≤ d ≤ days_in_month y mo ∧
  0 ≤ hh ≤ 23 ∧ 0 ≤ mi ≤ 59 ∧ 0 ≤ ss ≤ 59 ∧ 0 ≤ us ≤ 999999.
Proof.
  unfold datetime_new. case_match eqn:H; [|done]. intros [= <-].
  rewrite !andb_true_iff, !in_range_spec in H. intuition.
Qed.

Lemma datetime_new_bad_date y mo d hh mi ss us tz :
  valid_date y mo d = false → datetime_new y mo d hh mi ss us tz = inl ValueError.
Proof.
  unfold valid_date, datetime_new. intros H.
  by rewrite H.
Qed.

(** What the loop body makes of a string: the string itself when it is
    not datetime-shaped, else a datetime. *)
Lemma convert_string_inr run s r :
  convert_string run s = inr r →
  (r = VStr s ∧ _regex_datetime s = None) ∨ (∃ d, r = VDateTime d).
Proof.
  unfold convert_string.
  destruct (_regex_datetime s) as [[[[y mo] d] [t|]]|]; [| |intros [= <-]; by left].
  - destruct (run t) as [|tv [|]]; [done| |done].
    destruct (timedelta _ _) as [|off]; [done|]. cbn [res_bind].
    destruct (timezone off) as [|tz]; [done|]. cbn [res_bind].
    destruct (datetime_new _ _ _ _ _ _ _ _) as [|dt]; [done|].
    intros [= <-]. right. by eexists.
  - destruct (datetime_new _ _ _ _ _ _ _ _) as [|dt]; [done|].
    intros [= <-]. right. by eexists.
Qed.

(** A record whose values the loop body maps to themselves comes back
    unchanged. *)
Lemma convert_datetimes_fixed run (obj : gmap string value) :
  (∀ k v, obj !! k = Some v → convert_value run v = inr v) →
  _convert_datetimes run obj = inr obj.
Proof.
  intros Hv.
  rewrite convert_datetimes_returns by eauto. f_equal.
  apply map_eq. intros k. rewrite lookup_fmap.
  destruct (obj !! k) as [v|] eqn:Hk; [|done].
  simpl. unfold converted. by rewrite (Hv _ _ Hk).
Qed.

(** X1. A record none of whose string values is datetime-shaped comes
    back from the pass unchanged. *)
Theorem convert_datetimes_no_match run (obj : gmap string value) :
  (∀ k s, obj !! k = Some (VStr s) → _regex_datetime s = None) →
  _convert_datetimes run obj = inr obj.
Proof.
  intros H. apply convert_datetimes_fixed.
  intros k v Hk. destruct v; try done.
  simpl. unfold convert_string.
  by rewrite (H _ _ Hk).
Qed.

Lemma convert_datetimes_no_match_witness :
  _convert_datetimes (run_const tv_half_hour) obj_plain_strings =
  inr obj_plain_strings.
Proof.
  apply (convert_datetimes_no_match (run_const tv_half_hour) obj_plain_strings).
  intros k s Hk. unfold obj_plain_strings in Hk.
  apply lookup_insert_Some in Hk as [[_ Hk]|[_ Hk]]; [by simplify_eq|].
  apply lookup_insert_Some in Hk as [[_ Hk]|[_ Hk]]; [by simplify_eq|].
  by apply lookup_singleton_Some in Hk as [_ Hk].
Defined.

(** X2. The pass is idempotent: run on the record it returned, it
    returns that record again (datetimes are no strings, and strings it
    left alone are left alone again). *)
Theorem convert_datetimes_idempotent run (obj obj' : gmap string value) :
  _convert_datetimes run obj = inr obj' →
  _convert_datetimes run obj' = inr obj'.
Proof.
  intros H. pose proof (convert_datetimes_inr run obj obj' H) as Hk.
  apply convert_datetimes_fixed. intros k r Hr.
  specialize (Hk k). destruct (obj !! k) as [v|]; [|congruence].
  destruct Hk as (r' & Hv & Hlk). rewrite Hr in Hlk. injection Hlk as <-.
  destruct v; simpl in Hv; try (by injection Hv as <-).
  destruct (convert_string_inr _ _ _ Hv) as [[-> Hre]|[d ->]]; [|done].
  simpl. unfold convert_string. by rewrite Hre.
Qed.

Lemma convert_datetimes_idempotent_witness :
  _convert_datetimes (run_const tv_fraction_digits) obj_issued_converted =
  inr obj_issued_converted.
Proof.
  apply (convert_datetimes_idempotent (run_const tv_fraction_digits)
           obj_issued obj_issued_converted).
  reflexivity.
Defined.

(** X3. Every datetime the pass puts in place of a string has fields in
    range, and its microsecond is at most 999998. It carries no
    timezone exactly when the string had no time part, and then it is
    midnight; otherwise its UTC offset lies strictly within a day. *)
Theorem convert_datetimes_wellformed run (obj obj' : gmap string value) k s d :
  _convert_datetimes run obj = inr obj' →
  obj !! k = Some (VStr s) →
  obj' !! k = Some (VDateTime d) →
  (1 ≤ year d ≤ 9999 ∧ 1 ≤ month d ≤ 12 ∧
   1 ≤ day d ≤ days_in_month (year d) (month d) ∧
   0 ≤ hour d ≤ 23 ∧ 0 ≤ minute d ≤ 59 ∧ 0 ≤ second d ≤ 59 ∧
   0 ≤ microsecond d ≤ 999998) ∧
  match tzinfo d with
  | None =>
      _regex_datetime s = Some (year d, month d, day d, None) ∧
      hour d = 0 ∧ minute d = 0 ∧ second d = 0 ∧ microsecond d = 0
  | Some offset =>
      -1440 < offset < 1440 ∧
      ∃ time_str, _regex_datetime s = Some (year d, month d, day d, Some time_str)
  end.
Proof.
  intros H Hk Hk'. pose proof (convert_datetimes_inr run obj obj' H k) as Hr.
  rewrite Hk in Hr. destruct Hr as (r & Hr & Hlk).
  rewrite Hk' in Hlk. injection Hlk as <-.
  simpl in Hr. unfold convert_string in Hr.
  destruct (_regex_datetime s) as [[[[y mo] dd] [t|]]|]; [| |done].
  - destruct (run t) as [|tv [|]]; [done| |done].
    destruct (timedelta _ _) as [|off]; [done|]. cbn [res_bind] in Hr.
    unfold timezone in Hr. case_match eqn:Htz; [|done]. cbn [res_bind] in Hr.
    destruct (datetime_new _ _ _ _ _ _ _ _) as [|dt] eqn:Hdt; [done|].
    injection Hr as ->.
    apply datetime_new_inv in Hdt as (-> & ?). simpl.
    apply andb_true_iff in Htz as [?%Z.ltb_lt ?%Z.ltb_lt].
    assert (0 ≤ match fractional_seconds tv with
                 | Some f => f mod 999999 | None => 0 end ≤ 999998).
    { destruct (fractional_seconds tv) as [f|]; [|lia].
      pose proof (Z.mod_pos_bound f 999999). lia. }
    split; [intuition|]. split; [lia|by eexists].
  - destruct (datetime_new _ _ _ _ _ _ _ _) as [|dt] eqn:Hdt; [done|].
    injection Hr as ->.
    apply datetime_new_inv in Hdt as (-> & ?). simpl.
    split; [intuition lia|done].
Qed.

Lemma convert_datetimes_wellformed_witness :
  (1 ≤ year instant_digits ≤ 9999 ∧ 1 ≤ month instant_digits ≤ 12 ∧
   1 ≤ day instant_digits ≤ days_in_month (year instant_digits) (month instant_digits) ∧
   0 ≤ hour instant_digits ≤ 23 ∧ 0 ≤ minute instant_digits ≤ 59 ∧
   0 ≤ second instant_digits ≤ 59 ∧
   0 ≤ microsecond instant_digits ≤ 999998) ∧
  match tzinfo instant_digits with
  | None =>
      _regex_datetime instant_text =
        Some (year instant_digits, month instant_digits, day instant_digits, None) ∧
      hour instant_digits = 0 ∧ minute instant_digits = 0 ∧
      second instant_digits = 0 ∧ microsecond instant_digits = 0
  | Some offset =>
      -1440 < offset < 1440 ∧
      ∃ time_str, _regex_datetime instant_text =
        Some (year instant_digits, month instant_digits, day instant_digits,
              Some time_str)
  end.
Proof.
  apply (convert_datetimes_wellformed (run_const tv_fraction_digits)
           obj_issued obj_issued_converted "issued"%string instant_text
           instant_digits); reflexivity.
Defined.

(** X4. One bad entry fails the whole pass: if some string value is
    datetime-shaped but names no calendar date (a month 13, a 30th of
    February, the year 0000), or has a time part for which the
    collaborator does not report exactly one decomposition, the pass
    raises and returns no record. *)
Theorem convert_datetimes_bad_entry run (obj : gmap string value) k s y mo d t :
  obj !! k = Some (VStr s) →
  _regex_datetime s = Some (y, mo, d, t) →
  valid_date y mo d = false ∨
  (∃ time_str, t = Some time_str ∧ length (run time_str) ≠ 1%nat) →
  ∃ e, _convert_datetimes run obj = inl e.
Proof.
  intros Hk Hre Hbad.
  assert (∃ e, convert_value run (VStr s) = inl e) as [e He];
    [|by eapply convert_datetimes_inl].
  simpl. unfold convert_string. rewrite Hre.
  destruct Hbad as [Hdate|(ts & -> & Hlen)].
  - destruct t as [ts|].
    + destruct (run ts) as [|tv [|]]; [by eexists| |by eexists].
      destruct (timedelta _ _) as [|off]; [by eexists|]. cbn [res_bind].
      destruct (timezone off) as [|tz]; [by eexists|]. cbn [res_bind].
      rewrite datetime_new_bad_date by done. by eexists.
    + rewrite datetime_new_bad_date by done. by eexists.
  - destruct (run ts) as [|tv [|]]; [by eexists|done|by eexists].
Qed.

Lemma convert_datetimes_bad_entry_witness :
  ∃ e, _convert_datetimes (run_const tv_half_hour) obj_bad_date = inl e.
Proof.
  apply (convert_datetimes_bad_entry (run_const tv_half_hour) obj_bad_date
           "birthDate"%string "2021-02-30"%string 2021 2 30 None);
    [reflexivity|reflexivity|left; reflexivity].
Defined.

(** * Further properties of list-length inference *)

Lemma scan_nonneg pat obj m : scan pat obj = Some m → 0 ≤ m.
Proof.
  intros H. pose proof (scan_is_scan pat obj) as Hs. rewrite H in Hs.
  destruct Hs as [(k & _ & Hk) _]. by eapply re_match_num_nonneg.
Qed.

(** X5. The count depends on the keys only, and grows with them: if
    every key of one mapping is a key of another, the count inferred for
    the first is at most the count inferred for the second, and the two
    are equal when the mappings have the same keys. *)
Theorem set_list_length_monotone prefix_str (obj1 obj2 : gmap string value) :
  is_Some (search_pattern prefix_str) →
  (∀ k, is_Some (obj1 !! k) → is_Some (obj2 !! k)) →
  ∃ n1 n2,
    (_set_list_length prefix_str obj1).2 = inr n1 ∧
    (_set_list_length prefix_str obj2).2 = inr n2 ∧
    0 ≤ n1 ≤ n2 ∧
    ((∀ k, is_Some (obj2 !! k) → is_Some (obj1 !! k)) → n1 = n2).
Proof.
  intros [pat Hpat] Hsub. unfold _set_list_length. rewrite Hpat.
  pose proof (scan_is_scan pat obj1) as H1.
  pose proof (scan_is_scan pat obj2) as H2.
  pose proof (scan_nonneg pat obj1) as Hn1.
  pose proof (scan_nonneg pat obj2) as Hn2.
  destruct (scan pat obj1) as [m1|], (scan pat obj2) as [m2|]; simpl in *;
    eexists _, _; (split; [reflexivity|]); (split; [reflexivity|]).
  - specialize (Hn1 _ eq_refl). specialize (Hn2 _ eq_refl).
    destruct H1 as [(k1 & Hin1 & Hk1) Hall1], H2 as [(k2 & Hin2 & Hk2) Hall2].
    pose proof (Hall2 _ _ (Hsub _ Hin1) Hk1).
    split; [lia|]. intros Hsup. pose proof (Hall1 _ _ (Hsup _ Hin2) Hk2). lia.
  - destruct H1 as [(k1 & Hin1 & Hk1) _]. rewrite (H2 _ (Hsub _ Hin1)) in Hk1. done.
  - specialize (Hn2 _ eq_refl). split; [lia|]. intros Hsup.
    destruct H2 as [(k2 & Hin2 & Hk2) _]. rewrite (H1 _ (Hsup _ Hin2)) in Hk2. done.
  - split; [lia|done].
Qed.

Lemma set_list_length_monotone_witness :
  ∃ n1 n2,
    (_set_list_length "name" obj_two_names).2 = inr n1 ∧
    (_set_list_length "name" obj_three_names).2 = inr n2 ∧
    0 ≤ n1 ≤ n2 ∧
    ((∀ k, is_Some (obj_three_names !! k) → is_Some (obj_two_names !! k)) →
     n1 = n2).
Proof.
  apply (set_list_length_monotone "name" obj_two_names obj_three_names).
  - vm_compute. by eexists.
  - intros k Hk. unfold obj_three_names.
    destruct (decide (k = "name_2_family"%string)) as [->|Hne].
    + rewrite lookup_insert_eq. by eexists.
    + by rewrite lookup_insert_ne.
Defined.

(** X6. For a prefix without regular-expression metacharacters the
    count bounds every index: no key of the mapping has the form
    [prefix_<i>] with [i] at or above the count returned. The call
    changes no entry other than [len_<prefix>], which holds the count
    whenever the count is positive. *)
Theorem set_list_length_bounds_indices prefix_str (obj : gmap string value) :
  string_forall is_plain prefix_str = true →
  ∃ n,
    (_set_list_length prefix_str obj).2 = inr n ∧
    (∀ k i, is_Some (obj !! k) → key_index prefix_str k i → 0 ≤ i < n) ∧
    (∀ k, k ≠ "len_" +:+ prefix_str →
          (_set_list_length prefix_str obj).1 !! k = obj !! k) ∧
    (0 < n →
     (_set_list_length prefix_str obj).1 !! ("len_" +:+ prefix_str) =
       Some (VNum n)).
Proof.
  intros Hplain.
  assert (Hidx : ∀ k i, key_index prefix_str k i → 0 ≤ i).
  { intros k i (ds & rest & _ & _ & Hds & ->). by apply (int_of_digits_ge 0). }
  unfold _set_list_length. rewrite (search_pattern_plain _ Hplain).
  pose proof (scan_is_scan (plain_atoms prefix_str) obj) as Hs.
  destruct (scan _ obj) as [m|]; simpl in Hs |- *.
  - destruct Hs as [_ Hmax]. exists (m + 1). split_and!; [done| | |].
    + intros k i Hin Hk. pose proof (Hidx _ _ Hk).
      apply re_match_num_plain_complete in Hk as (n' & Hk & Hle).
      pose proof (Hmax _ _ Hin Hk). lia.
    + intros k Hne. by rewrite lookup_insert_ne.
    + intros _. by rewrite lookup_insert_eq.
  - exists 0. split_and!; [done| |done|lia].
    intros k i Hin Hk.
    apply re_match_num_plain_complete in Hk as (n' & Hk & _).
    rewrite (Hs k Hin) in Hk. done.
Qed.

Lemma set_list_length_bounds_indices_witness :
  ∃ n,
    (_set_list_length "name" obj_two_names).2 = inr n ∧
    (∀ k i, is_Some (obj_two_names !! k) → key_index "name" k i → 0 ≤ i < n) ∧
    (∀ k, k ≠ "len_" +:+ "name" →
          (_set_list_length "name" obj_two_names).1 !! k = obj_two_names !! k) ∧
    (0 < n →
     (_set_list_length "name" obj_two_names).1 !! ("len_" +:+ "name") =
       Some (VNum n)).
Proof.
  apply (set_list_length_bounds_indices "name" obj_two_names). reflexivity.
Defined.

(** * Further properties of the decoders *)

(** X7. The list-length part of every decoder, and the two helpers it
    begins with, return on every record and change no entry whose key
    does not begin with [len_]. *)
Theorem decoder_lists_infer_lengths :
  infers_lengths _base_init ∧
  infers_lengths _contained_med_resource_init ∧
  infers_lengths observation_lists ∧
  infers_lengths medication_administration_lists ∧
  infers_lengths medication_order_lists ∧
  infers_lengths medication_statement_lists ∧
  infers_lengths condition_lists ∧
  infers_lengths procedure_lists ∧
  infers_lengths patient_lists.
Proof.
  split_and!;
    [ apply base_init_infers | apply contained_med_resource_init_infers
    | apply observation_lists_infers
    | apply medication_administration_lists_infers
    | apply medication_order_lists_infers
    | apply medication_statement_lists_infers
    | apply condition_lists_infers | apply procedure_lists_infers
    | apply patient_lists_infers ].
Qed.

Ltac frame_tac Hfr :=
  first
    [ rewrite Hfr by done; lookups; done
    | let k := fresh "k" in
      intros k ? ? ?; rewrite Hfr by done;
      rewrite ?lookup_insert_ne by done; done ].

(** X8. The MedicationOrder decoder returns on every record. It copies
    [dateWritten] to [date_time] and [dateEnded] to [end_date_time] when
    they are present, leaves those two entries as they were otherwise,
    and changes no other entry whose key does not begin with [len_]. *)
Theorem medication_order_decodes (obj : gmap string value) :
  ∃ obj',
    _decode_flattened_medication_order obj = (obj', inr tt) ∧
    obj' !! _KEY_DATE_TIME =
      match obj !! "dateWritten" with
      | Some dw => Some dw
      | None => obj !! _KEY_DATE_TIME
      end ∧
    obj' !! _KEY_END_DATE_TIME =
      match obj !! "dateEnded" with
      | Some de => Some de
      | None => obj !! _KEY_END_DATE_TIME
      end ∧
    (∀ k, is_len_key k = false → k ≠ _KEY_DATE_TIME → k ≠ _KEY_END_DATE_TIME →
          obj' !! k = obj !! k).
Proof.
  unfold _decode_flattened_medication_order. cbv zeta. unfold_keys.
  destruct (obj !! "dateWritten") as [dw|] eqn:Hdw;
    destruct (obj !! "dateEnded") as [de|] eqn:Hde;
    steps; run_lists medication_order_lists_infers;
    (eexists; split_and!; [reflexivity|frame_tac Hfr..]).
Qed.

(** X9. The MedicationStatement decoder returns on every record. It
    copies [dateAsserted] to [date_time] when present and changes no
    other entry whose key does not begin with [len_]; in particular it
    never writes [end_date_time]. *)
Theorem medication_statement_decodes (obj : gmap string value) :
  ∃ obj',
    _decode_flattened_medication_statement obj = (obj', inr tt) ∧
    obj' !! _KEY_DATE_TIME =
      match obj !! "dateAsserted" with
      | Some da => Some da
      | None => obj !! _KEY_DATE_TIME
      end ∧
    obj' !! _KEY_END_DATE_TIME = obj !! _KEY_END_DATE_TIME ∧
    (∀ k, is_len_key k = false → k ≠ _KEY_DATE_TIME → k ≠ _KEY_END_DATE_TIME →
          obj' !! k = obj !! k).
Proof.
  unfold _decode_flattened_medication_statement. cbv zeta. unfold_keys.
  destruct (obj !! "dateAsserted") as [da|] eqn:Hda;
    steps; run_lists medication_statement_lists_infers;
    (eexists; split_and!; [reflexivity|frame_tac Hfr..]).
Qed.

(** X10. On every record whose [performedPeriod] is a mapping the
    Procedure decoder returns. [date_time] is the [start] of the period
    if it has one, else [performedDateTime] if present, else as it was;
    [end_date_time] is the [end] of the period if it has one, else as
    it was. No other entry is changed whose key does not begin with
    [len_]. *)
Theorem procedure_period_decodes (obj pp : gmap string value) :
  obj !! "performedPeriod" = Some (VDict pp) →
  ∃ obj',
    _decode_flattened_procedure obj = (obj', inr tt) ∧
    obj' !! _KEY_DATE_TIME =
      match pp !! "start", obj !! "performedDateTime" with
      | Some start, _ => Some start
      | None, Some pdt => Some pdt
      | None, None => obj !! _KEY_DATE_TIME
      end ∧
    obj' !! _KEY_END_DATE_TIME =
      match pp !! "end" with
      | Some e => Some e
      | None => obj !! _KEY_END_DATE_TIME
      end ∧
    (∀ k, is_len_key k = false → k ≠ _KEY_DATE_TIME → k ≠ _KEY_END_DATE_TIME →
          obj' !! k = obj !! k).
Proof.
  intros Hpp. unfold _decode_flattened_procedure. cbv zeta. unfold_keys.
  destruct (obj !! "performedDateTime") as [pdt|] eqn:Hpdt;
    destruct (pp !! "start") as [start|] eqn:Hstart;
    destruct (pp !! "end") as [e|] eqn:Hend;
    steps; run_lists procedure_lists_infers;
    (eexists; split_and!; [reflexivity|frame_tac Hfr..]).
Qed.

Lemma procedure_period_decodes_witness :
  ∃ obj',
    _decode_flattened_procedure obj_procedure_period = (obj', inr tt) ∧
    obj' !! _KEY_DATE_TIME =
      match period_both !! "start", obj_procedure_period !! "performedDateTime" with
      | Some start, _ => Some start
      | None, Some pdt => Some pdt
      | None, None => obj_procedure_period !! _KEY_DATE_TIME
      end ∧
    obj' !! _KEY_END_DATE_TIME =
      match period_both !! "end" with
      | Some e => Some e
      | None => obj_procedure_period !! _KEY_END_DATE_TIME
      end ∧
    (∀ k, is_len_key k = false → k ≠ _KEY_DATE_TIME → k ≠ _KEY_END_DATE_TIME →
          obj' !! k = obj_procedure_period !! k).
Proof.
  apply (procedure_period_decodes obj_procedure_period period_both). reflexivity.
Defined.

(** X11. The MedicationAdministration decoder has the unbound subscript
    of the Observation decoder: on every record whose
    [effectiveTimePeriod] is a mapping with an [end] value it raises
    [NameError] and leaves [end_date_time] as it was. *)
Theorem medication_administration_period_end_raises
    (obj ep : gmap string value) e :
  obj !! "effectiveTimePeriod" = Some (VDict ep) →
  ep !! "end" = Some e →
  ∃ obj',
    _decode_flattened_medication_administration obj =
      (obj', inl (NameError "KEY_END_DATE_TIME")) ∧
    obj' !! _KEY_END_DATE_TIME = obj !! _KEY_END_DATE_TIME.
Proof.
  intros Hep Hend. unfold _decode_flattened_medication_administration.
  cbv zeta. unfold_keys.
  destruct (obj !! "effectiveTimeDateTime") as [edt|] eqn:Hedt;
    destruct (ep !! "start") as [start|] eqn:Hstart; steps;
    (eexists; split; [reflexivity|]);
    by rewrite ?lookup_insert_ne by done.
Qed.

Lemma medication_administration_period_end_raises_witness :
  ∃ obj',
    _decode_flattened_medication_administration obj_administration_period =
      (obj', inl (NameError "KEY_END_DATE_TIME")) ∧
    obj' !! _KEY_END_DATE_TIME = obj_administration_period !! _KEY_END_DATE_TIME.
Proof.
  apply (medication_administration_period_end_raises obj_administration_period
           period_end_only (VStr "2020-03-15")); reflexivity.
Defined.

(** X12. A period that is not a mapping. The Condition decoder raises
    [TypeError] whenever [onsetPeriod] is present and no mapping. The
    Procedure decoder raises [TypeError] when [performedPeriod] is
    [None], a boolean, a number or a datetime; when it is a string, the
    membership tests are substring tests: the decoder raises
    [TypeError] if the string contains [start] or [end], and otherwise
    returns as if there were no period. *)
Theorem period_not_a_mapping :
  (∀ (obj : gmap string value) v,
     obj !! "onsetPeriod" = Some v → (∀ d, v ≠ VDict d) →
     (_decode_flattened_condition obj).2 = inl TypeError) ∧
  (∀ (obj : gmap string value) v,
     obj !! "performedPeriod" = Some v →
     v = VNone ∨ (∃ b, v = VBool b) ∨ (∃ z, v = VNum z) ∨ (∃ d, v = VDateTime d) →
     (_decode_flattened_procedure obj).2 = inl TypeError) ∧
  (∀ (obj : gmap string value) s,
     obj !! "performedPeriod" = Some (VStr s) →
     is_substring "start" s || is_substring "end" s = true →
     (_decode_flattened_procedure obj).2 = inl TypeError) ∧
  (∀ (obj : gmap string value) s,
     obj !! "performedPeriod" = Some (VStr s) →
     is_substring "start" s || is_substring "end" s = false →
     (_decode_flattened_procedure obj).2 = inr tt ∧
     (_decode_flattened_procedure obj).1 !! _KEY_DATE_TIME =
       match obj !! "performedDateTime" with
       | Some pdt => Some pdt
       | None => obj !! _KEY_DATE_TIME
       end).
Proof.
  split_and!.
  - intros obj v Hop Hv.
    unfold _decode_flattened_condition. cbv zeta. unfold_keys.
    destruct (obj !! "onsetDateTime") as [odt|] eqn:Hodt;
      destruct (obj !! "abatementDateTime") as [adt|] eqn:Hadt;
      steps; destruct v; try (by destruct (Hv d)); cbn [py_getitem]; steps; done.
  - intros obj v Hpp Hv.
    unfold _decode_flattened_procedure. cbv zeta. unfold_keys.
    destruct (obj !! "performedDateTime") as [pdt|] eqn:Hpdt;
      steps; destruct Hv as [->|[[b ->]|[[z ->]|[d ->]]]];
      cbn [py_contains]; steps; done.
  - intros obj s Hpp Hs.
    unfold _decode_flattened_procedure. cbv zeta. unfold_keys.
    destruct (obj !! "performedDateTime") as [pdt|] eqn:Hpdt;
      steps; cbn [py_contains]; steps;
      destruct (is_substring "start" s) eqn:Hstart;
      steps; cbn [py_getitem py_contains]; steps; try done;
      simpl in Hs; rewrite Hs; steps; cbn [py_getitem]; steps; done.
  - intros obj s Hpp Hs. apply orb_false_iff in Hs as [Hstart Hend].
    unfold _decode_flattened_procedure. cbv zeta. unfold_keys.
    destruct (obj !! "performedDateTime") as [pdt|] eqn:Hpdt;
      steps; cbn [py_contains]; steps; rewrite Hstart; steps;
      cbn [py_contains]; steps; rewrite Hend; steps;
      run_lists procedure_lists_infers;
      (split; [done|]); cbn [fst]; rewrite Hfr by done; lookups; done.
Qed.

Lemma period_not_a_mapping_witness :
  (_decode_flattened_procedure obj_procedure_text_period).2 = inl TypeError.
Proof.
  apply (proj1 (proj2 (proj2 period_not_a_mapping))
           obj_procedure_text_period "from the start"%string); reflexivity.
Defined.

(** * Further properties of the dispatcher *)

Lemma convert_datetimes_keys run (obj obj' : gmap string value) k :
  _convert_datetimes run obj = inr obj' →
  is_Some (obj' !! k) ↔ is_Some (obj !! k).
Proof.
  intros H. pose proof (convert_datetimes_inr run obj obj' H k) as Hk.
  destruct (obj !! k) as [v|].
  - destruct Hk as (r & _ & ->). split; by eexists.
  - rewrite Hk. done.
Qed.

(** X13. Records without a usable discriminator. [_process_resource]
    raises [AssertionError] on anything that is no dict. When the
    flattened record has no [resourceType] key, its outcome is that of
    the normalisation pass with absent for the record. When the
    flattened record has the key but the record itself has not, it
    raises [KeyError], because the key is tested in the one and read
    from the other. *)
Theorem process_resource_without_discriminator
    (run : string → list TimeValue)
    (flatten : gmap string value → gmap string value)
    (json_loads : string → string + value) :
  (∀ obj, (∀ d, obj ≠ VDict d) →
     _process_resource run flatten json_loads obj = inl AssertionError) ∧
  (∀ d : gmap string value,
     flatten d !! "resourceType" = None →
     _process_resource run flatten json_loads (VDict d) =
       res_map (λ _, None) (_convert_datetimes run (flatten d))) ∧
  (∀ (d flattened_obj : gmap string value),
     is_Some (flatten d !! "resourceType") →
     d !! "resourceType" = None →
     _convert_datetimes run (flatten d) = inr flattened_obj →
     _process_resource run flatten json_loads (VDict d) =
       inl (KeyError "resourceType")).
Proof.
  split_and!.
  - intros obj Hobj. destruct obj; try done. by destruct (Hobj d).
  - intros d Hd. unfold _process_resource, _STR_RESOURCE_TYPE.
    destruct (_convert_datetimes run (flatten d)) as [e|fo] eqn:Hfo; [done|].
    cbn [res_bind res_map]. case_bool_decide as Hin; [|done].
    apply (convert_datetimes_keys _ _ _ _ Hfo) in Hin.
    rewrite Hd in Hin. by destruct Hin.
  - intros d fo Hin Hd Hfo. unfold _process_resource, _STR_RESOURCE_TYPE.
    rewrite Hfo. cbn [res_bind].
    rewrite bool_decide_eq_true_2 by (by apply (convert_datetimes_keys _ _ _ _ Hfo)).
    by rewrite Hd.
Qed.

Lemma process_resource_without_discriminator_witness :
  _process_resource (run_const tv_half_hour) flatten_flat json_loads_fail
    (VDict obj_plain_strings) = inr None.
Proof.
  refine (eq_trans
            (proj1 (proj2 (process_resource_without_discriminator
                             (run_const tv_half_hour) flatten_flat json_loads_fail))
               obj_plain_strings eq_refl) eq_refl).
Defined.

(** X14. A MedicationOrder record, end to end. When the record names
    the type [MedicationOrder], the normalisation of its flattened form
    returns and that form has the discriminator, [_process_resource]
    returns a record: it is the normalised record with [date_time] and
    [end_date_time] taken from its [dateWritten] and [dateEnded], and
    with [len_] entries added. When [dateWritten] was a date-only
    string, [date_time] is the datetime of that date at midnight, not
    the string. *)
Theorem process_resource_medication_order
    (run : string → list TimeValue)
    (flatten : gmap string value → gmap string value)
    (json_loads : string → string + value)
    (d flattened_obj : gmap string value) :
  d !! "resourceType" = Some (VStr "MedicationOrder") →
  _convert_datetimes run (flatten d) = inr flattened_obj →
  is_Some (flatten d !! "resourceType") →
  ∃ r,
    _process_resource run flatten json_loads (VDict d) = inr (Some r) ∧
    r !! _KEY_DATE_TIME =
      match flattened_obj !! "dateWritten" with
      | Some dw => Some dw
      | None => flattened_obj !! _KEY_DATE_TIME
      end ∧
    r !! _KEY_END_DATE_TIME =
      match flattened_obj !! "dateEnded" with
      | Some de => Some de
      | None => flattened_obj !! _KEY_END_DATE_TIME
      end ∧
    (∀ k, is_len_key k = false → k ≠ _KEY_DATE_TIME → k ≠ _KEY_END_DATE_TIME →
          r !! k = flattened_obj !! k) ∧
    (∀ s y mo dd,
       flatten d !! "dateWritten" = Some (VStr s) →
       _regex_datetime s = Some (y, mo, dd, None) →
       r !! _KEY_DATE_TIME = Some (VDateTime (mk_datetime y mo dd 0 0 0 0 None))).
Proof.
  intros Hd Hfo Hin.
  assert (Hdw : ∀ s y mo dd,
            flatten d !! "dateWritten" = Some (VStr s) →
            _regex_datetime s = Some (y, mo, dd, None) →
            flattened_obj !! "dateWritten" =
              Some (VDateTime (mk_datetime y mo dd 0 0 0 0 None))).
  { intros s y mo dd Hs Hre.
    pose proof (convert_datetimes_inr run _ _ Hfo "dateWritten") as Hk.
    rewrite Hs in Hk. destruct Hk as (r0 & Hr0 & ->).
    simpl in Hr0. unfold convert_string in Hr0. rewrite Hre in Hr0.
    destruct (datetime_new y mo dd 0 0 0 0 None) as [|dt] eqn:Hdt; [done|].
    apply datetime_new_inv in Hdt as [-> _]. by injection Hr0 as <-. }
  unfold _process_resource, _STR_RESOURCE_TYPE. rewrite Hfo. cbn [res_bind].
  rewrite bool_decide_eq_true_2 by (by apply (convert_datetimes_keys _ _ _ _ Hfo)).
  rewrite Hd. cbn [is_str String.eqb Ascii.eqb Bool.eqb].
  unfold _decode_flattened_medication_order. cbv zeta. unfold_keys.
  destruct (flattened_obj !! "dateWritten") as [dw|] eqn:Hw;
    destruct (flattened_obj !! "dateEnded") as [de|] eqn:He;
    steps; run_lists medication_order_lists_infers;
    (eexists; split_and!;
     [ reflexivity | frame_tac Hfr | frame_tac Hfr | frame_tac Hfr
     | intros s y mo dd Hs Hre; specialize (Hdw s y mo dd Hs Hre);
       simplify_eq; frame_tac Hfr ]).
Qed.

Lemma process_resource_medication_order_witness :
  ∃ r,
    _process_resource (run_const tv_half_hour) flatten_flat json_loads_fail
      (VDict obj_order_resource) = inr (Some r) ∧
    r !! _KEY_DATE_TIME =
      Some (VDateTime (mk_datetime 2020 1 1 0 0 0 0 None)).
Proof.
  destruct (process_resource_medication_order (run_const tv_half_hour)
              flatten_flat json_loads_fail obj_order_resource
              obj_order_normalised eq_refl eq_refl)
    as (r & Hr & _ & _ & _ & Hdate).
  - by eexists.
  - exists r. split; [exact Hr|].
    apply (Hdate "2020-01-01"%string 2020 1 1); reflexivity.
Defined.

(** X15. One failing record fails the bundle. If the records before a
    record decode and that record raises, [_decode_bundle] raises the
    same exception whatever follows, and the results collected so far
    are lost. *)
Theorem bundle_first_failure
    (run : string → list TimeValue)
    (flatten : gmap string value → gmap string value)
    (json_loads : string → string + value)
    name s before elt after e :
  json_loads s = inr (VList (before ++ elt :: after)) →
  Forall (λ x, ∃ r, _process_resource run flatten json_loads x = inr r) before →
  _process_resource run flatten json_loads elt = inl e →
  _decode_bundle run flatten json_loads name (VStr s) = ([], inl e).
Proof.
  intros Hs Hbefore Helt. unfold _decode_bundle. rewrite Hs. f_equal.
  clear Hs. generalize (@nil (gmap string value)) as acc.
  induction Hbefore as [|b before [r Hr] _ IH]; intros acc; simpl.
  - by rewrite Helt.
  - rewrite Hr. cbn [res_bind]. destruct r; apply IH.
Qed.

Lemma bundle_first_failure_witness :
  _decode_bundle (run_const tv_half_hour) flatten_flat
    (json_loads_const (VList ([VDict obj_unsupported] ++ VNum 1 :: [VDict obj_unsupported])))
    VNone (VStr "payload") = ([], inl AssertionError).
Proof.
  apply (bundle_first_failure (run_const tv_half_hour) flatten_flat
           (json_loads_const
              (VList ([VDict obj_unsupported] ++ VNum 1 :: [VDict obj_unsupported])))
           VNone "payload"%string [VDict obj_unsupported] (VNum 1)
           [VDict obj_unsupported] AssertionError).
  - reflexivity.
  - constructor; [by exists None|constructor].
  - reflexivity.
Defined.

(** X16. Envelopes that are not decoded. [decode_top_level_obj] raises
    [AssertionError] on anything that is no dict. For a dict without a
    [resultType] or without a [result], and for a [resultType] other
    than [Patient] and the two bundle cursor types, it returns [None];
    in all these cases nothing is printed. A bundle payload that is no
    string, or that parses to something other than a list, raises
    [AssertionError]. *)
Theorem envelope_not_decoded
    (run : string → list TimeValue)
    (flatten : gmap string value → gmap string value)
    (json_loads : string → string + value) :
  (∀ obj, (∀ d, obj ≠ VDict d) →
     decode_top_level_obj run flatten json_loads obj = ([], inl AssertionError)) ∧
  (∀ d : gmap string value,
     d !! "resultType" = None ∨ d !! "result" = None →
     decode_top_level_obj run flatten json_loads (VDict d) = ([], inr VNone)) ∧
  (∀ (d : gmap string value) t result_obj,
     d !! "resultType" = Some t →
     d !! "result" = Some result_obj →
     t ≠ VStr "Patient" → t ≠ VStr "FhirBundleCursorStu2" →
     t ≠ VStr "FhirBundleCursorStu3" →
     decode_top_level_obj run flatten json_loads (VDict d) = ([], inr VNone)) ∧
  (∀ name bundle_obj, (∀ s, bundle_obj ≠ VStr s) →
     _decode_bundle run flatten json_loads name bundle_obj =
       ([], inl AssertionError)) ∧
  (∀ name s v, json_loads s = inr v → (∀ l, v ≠ VList l) →
     _decode_bundle run flatten json_loads name (VStr s) =
       ([], inl AssertionError)).
Proof.
  split_and!.
  - intros obj Hobj. destruct obj; try done. by destruct (Hobj d).
  - intros d Hd. unfold decode_top_level_obj. cbv zeta.
    destruct Hd as [-> | Hd]; [done|]. rewrite Hd. by destruct (d !! "resultType").
  - intros d t result_obj Ht Hres H1 H2 H3.
    unfold decode_top_level_obj. cbv zeta. rewrite Ht, Hres.
    by rewrite !is_str_false.
  - intros name bundle_obj Hb. destruct bundle_obj; try done. by destruct (Hb s).
  - intros name s v Hs Hv. unfold _decode_bundle. rewrite Hs.
    destruct v; try done. by destruct (Hv l).
Qed.

Lemma envelope_not_decoded_witness :
  decode_top_level_obj (run_const tv_half_hour) flatten_flat json_loads_fail
    (VDict envelope_other) = ([], inr VNone).
Proof.
  apply (proj1 (proj2 (proj2 (envelope_not_decoded (run_const tv_half_hour)
                                flatten_flat json_loads_fail)))
           envelope_other (VStr "Observation") (VStr "[]"));
    done.
Defined.

(** X17. The Patient decoder and its payload. A string payload that
    parses to a dict is decoded as that dict; one that parses to
    anything else, and a payload that is neither a string nor a dict,
    raises [AssertionError]. On a dict whose flattened form the
    normalisation pass accepts, the decoder returns the normalised
    record with [len_] entries added and nothing else changed; it
    promotes no timestamp. *)
Theorem patient_payload
    (run : string → list TimeValue)
    (flatten : gmap string value → gmap string value)
    (json_loads : string → string + value) :
  (∀ s (d : gmap string value),
     json_loads s = inr (VDict d) →
     _decode_flattened_patient run flatten json_loads (VStr s) =
     _decode_flattened_patient run flatten json_loads (VDict d)) ∧
  (∀ s v, json_loads s = inr v → (∀ d, v ≠ VDict d) →
     _decode_flattened_patient run flatten json_loads (VStr s) =
       inl AssertionError) ∧
  (∀ obj, (∀ s, obj ≠ VStr s) → (∀ d, obj ≠ VDict d) →
     _decode_flattened_patient run flatten json_loads obj = inl AssertionError) ∧
  (∀ (d flattened_patient : gmap string value),
     _convert_datetimes run (flatten d) = inr flattened_patient →
     ∃ r,
       _decode_flattened_patient run flatten json_loads (VDict d) = inr r ∧
       ∀ k, is_len_key k = false → r !! k = flattened_patient !! k).
Proof.
  split_and!.
  - intros s d Hs. unfold _decode_flattened_patient. by rewrite Hs.
  - intros s v Hs Hv. unfold _decode_flattened_patient. rewrite Hs.
    cbn [res_bind]. destruct v; try done. by destruct (Hv d).
  - intros obj Hs Hd. destruct obj; try done; [by destruct (Hs s)|by destruct (Hd d)].
  - intros d fp Hfp. unfold _decode_flattened_patient. cbn [res_bind].
    rewrite Hfp. cbn [res_bind].
    destruct (patient_lists_infers fp) as (obj' & [] & -> & Hfr).
    by exists obj'.
Qed.

Lemma patient_payload_witness :
  ∃ r,
    _decode_flattened_patient (run_const tv_half_hour) flatten_flat
      json_loads_fail (VDict obj_patient_resource) = inr r ∧
    ∀ k, is_len_key k = false → r !! k = obj_patient_resource !! k.
Proof.
  apply (proj2 (proj2 (proj2 (patient_payload (run_const tv_half_hour)
                                flatten_flat json_loads_fail)))
           obj_patient_resource obj_patient_resource).
  reflexivity.
Defined.

(** X18. A Patient record through [_process_resource] is flattened and
    normalised twice, once by the dispatcher and once by the decoder.
    When the flattener leaves the normalised record as it is, the
    second round changes nothing: the result is the normalised record
    with [len_] entries added. *)
Theorem process_resource_patient
    (run : string → list TimeValue)
    (flatten : gmap string value → gmap string value)
    (json_loads : string → string + value)
    (d flattened_obj : gmap string value) :
  d !! "resourceType" = Some (VStr "Patient") →
  _convert_datetimes run (flatten d) = inr flattened_obj →
  is_Some (flatten d !! "resourceType") →
  flatten flattened_obj = flattened_obj →
  ∃ r,
    _process_resource run flatten json_loads (VDict d) = inr (Some r) ∧
    ∀ k, is_len_key k = false → r !! k = flattened_obj !! k.
Proof.
  intros Hd Hfo Hin Hflat.
  unfold _process_resource, _STR_RESOURCE_TYPE. rewrite Hfo. cbn [res_bind].
  rewrite bool_decide_eq_true_2 by (by apply (convert_datetimes_keys _ _ _ _ Hfo)).
  rewrite Hd. cbn [is_str String.eqb Ascii.eqb Bool.eqb].
  unfold _decode_flattened_patient. cbn [res_bind]. rewrite Hflat.
  assert (Hagain : _convert_datetimes run flattened_obj = inr flattened_obj).
  { apply convert_datetimes_fixed. intros k r Hr.
    pose proof (convert_datetimes_inr run _ _ Hfo k) as Hk.
    destruct (flatten d !! k) as [v|]; [|congruence].
    destruct Hk as (r' & Hv & Hlk). rewrite Hr in Hlk. injection Hlk as <-.
    destruct v; simpl in Hv; try (by injection Hv as <-).
    destruct (convert_string_inr _ _ _ Hv) as [[-> Hre]|[dt ->]]; [|done].
    simpl. unfold convert_string. by rewrite Hre. }
  rewrite Hagain. cbn [res_bind].
  destruct (patient_lists_infers flattened_obj) as (obj' & [] & -> & Hfr).
  by exists obj'.
Qed.

Lemma process_resource_patient_witness :
  ∃ r,
    _process_resource (run_const tv_half_hour) flatten_flat json_loads_fail
      (VDict obj_patient_resource) = inr (Some r) ∧
    ∀ k, is_len_key k = false → r !! k = obj_patient_resource !! k.
Proof.
  apply (process_resource_patient (run_const tv_half_hour) flatten_flat
           json_loads_fail obj_patient_resource obj_patient_resource);
    [reflexivity|reflexivity|by eexists|reflexivity].
Defined.

(** * The entries the decoders write *)




Lemma len_key_is_len p : is_len_key ("len_" +:+ p) = true.
Proof. unfold is_len_key. rewrite !append_cons, append_nil. simpl. by destruct p. Qed.

Lemma len_variant_trans obj0 obj1 obj2 :
  len_variant obj0 obj1 → len_variant obj1 obj2 → len_variant obj0 obj2.
Proof. intros H1 H2 k Hk. by rewrite H2, H1. Qed.

Section establishes.
Context (obj0 : gmap string value) (p : string).









End establishes.


Lemma starts_with_app pre s : starts_with pre (pre +:+ s) = true.
Proof.
  induction pre as [|c pre IH]; [done|].
  rewrite append_cons. simpl. by rewrite Ascii.eqb_refl.
Qed.









(** ** Lengths inferred per index *)

Lemma length_append s t :
  String.length (s +:+ t) = (String.length s + String.length t)%nat.
Proof. induction s as [|c s IH]; [done|]. rewrite append_cons. simpl. by rewrite IH. Qed.








(** * The decoders on records without a period end *)

(** X21. On every record whose [effectivePeriod] is absent, or a
    mapping without [end], the Observation decoder returns. [date_time]
    is the [start] of the period if it has one, else
    [effectiveDateTime] if present, else as it was. No other entry is
    changed whose key does not begin with [len_]: in particular the
    decoder, when it returns, has never written [end_date_time]. *)
Theorem observation_without_period_end_decodes
    (obj : gmap string value) (period : option (gmap string value)) :
  obj !! "effectivePeriod" = VDict <$> period →
  period ≫= (.!! "end") = None →
  ∃ obj',
    _decode_flattened_observation obj = (obj', inr tt) ∧
    obj' !! _KEY_DATE_TIME =
      match period ≫= (.!! "start"), obj !! "effectiveDateTime" with
      | Some start, _ => Some start
      | None, Some edt => Some edt
      | None, None => obj !! _KEY_DATE_TIME
      end ∧
    (∀ k, is_len_key k = false → k ≠ _KEY_DATE_TIME → obj' !! k = obj !! k).
Proof.
  intros Hep Hend. unfold _decode_flattened_observation. cbv zeta. unfold_keys.
  destruct period as [ep|]; simpl in Hep, Hend |- *;
    destruct (obj !! "effectiveDateTime") as [edt|] eqn:Hedt;
    try destruct (ep !! "start") as [start|] eqn:Hstart;
    steps; run_lists observation_lists_infers;
    (eexists; split_and!;
     [ reflexivity
     | rewrite Hfr by done; lookups; done
     | intros k ? ?; rewrite Hfr by done;
       rewrite ?lookup_insert_ne by done; done ]).
Qed.

Lemma observation_without_period_end_decodes_witness :
  ∃ obj',
    _decode_flattened_observation obj_observation_start = (obj', inr tt) ∧
    obj' !! _KEY_DATE_TIME =
      match Some period_start_only ≫= (.!! "start"),
            obj_observation_start !! "effectiveDateTime" with
      | Some start, _ => Some start
      | None, Some edt => Some edt
      | None, None => obj_observation_start !! _KEY_DATE_TIME
      end ∧
    (∀ k, is_len_key k = false → k ≠ _KEY_DATE_TIME →
          obj' !! k = obj_observation_start !! k).
Proof.
  apply (observation_without_period_end_decodes obj_observation_start
           (Some period_start_only)); reflexivity.
Defined.

(** X22. The MedicationAdministration decoder likewise: on every record
    whose [effectiveTimePeriod] is absent, or a mapping without [end],
    it returns; [date_time] is the [start] of the period if it has one,
    else [effectiveTimeDateTime] if present, else as it was; and no
    other entry is changed whose key does not begin with [len_]. *)
Theorem medication_administration_without_period_end_decodes
    (obj : gmap string value) (period : option (gmap string value)) :
  obj !! "effectiveTimePeriod" = VDict <$> period →
  period ≫= (.!! "end") = None →
  ∃ obj',
    _decode_flattened_medication_administration obj = (obj', inr tt) ∧
    obj' !! _KEY_DATE_TIME =
      match period ≫= (.!! "start"), obj !! "effectiveTimeDateTime" with
      | Some start, _ => Some start
      | None, Some edt => Some edt
      | None, None => obj !! _KEY_DATE_TIME
      end ∧
    (∀ k, is_len_key k = false → k ≠ _KEY_DATE_TIME → obj' !! k = obj !! k).
Proof.
  intros Hep Hend. unfold _decode_flattened_medication_administration.
  cbv zeta. unfold_keys.
  destruct period as [ep|]; simpl in Hep, Hend |- *;
    destruct (obj !! "effectiveTimeDateTime") as [edt|] eqn:Hedt;
    try destruct (ep !! "start") as [start|] eqn:Hstart;
    steps; run_lists medication_administration_lists_infers;
    (eexists; split_and!;
     [ reflexivity
     | rewrite Hfr by done; lookups; done
     | intros k ? ?; rewrite Hfr by done;
       rewrite ?lookup_insert_ne by done; done ]).
Qed.

Lemma medication_administration_without_period_end_decodes_witness :
  ∃ obj',
    _decode_flattened_medication_administration obj_administration_start =
      (obj', inr tt) ∧
    obj' !! _KEY_DATE_TIME =
      match Some period_start_only ≫= (.!! "start"),
            obj_administration_start !! "effectiveTimeDateTime" with
      | Some start, _ => Some start
      | None, Some edt => Some edt
      | None, None => obj_administration_start !! _KEY_DATE_TIME
      end ∧
    (∀ k, is_len_key k = false → k ≠ _KEY_DATE_TIME →
          obj' !! k = obj_administration_start !! k).
Proof.
  apply (medication_administration_without_period_end_decodes
           obj_administration_start (Some period_start_only)); reflexivity.
Defined.

(** X23. On every Condition record whose [onsetPeriod] is absent or a
    mapping with [start], and whose [abatementPeriod] is absent or a
    mapping with [end], the decoder returns. [date_time] is the [start]
    of the onset period if there is one, else [onsetDateTime] if
    present, else as it was; [end_date_time] is the [end] of the
    abatement period if there is one, else [abatementDateTime] if
    present, else as it was. No other entry is changed whose key does
    not begin with [len_]. *)
Theorem condition_decodes
    (obj : gmap string value) (onset abatement : option (gmap string value)) :
  obj !! "onsetPeriod" = VDict <$> onset →
  obj !! "abatementPeriod" = VDict <$> abatement →
  (∀ op, onset = Some op → is_Some (op !! "start")) →
  (∀ ap, abatement = Some ap → is_Some (ap !! "end")) →
  ∃ obj',
    _decode_flattened_condition obj = (obj', inr tt) ∧
    obj' !! _KEY_DATE_TIME =
      match onset ≫= (.!! "start"), obj !! "onsetDateTime" with
      | Some start, _ => Some start
      | None, Some odt => Some odt
      | None, None => obj !! _KEY_DATE_TIME
      end ∧
    obj' !! _KEY_END_DATE_TIME =
      match abatement ≫= (.!! "end"), obj !! "abatementDateTime" with
      | Some e, _ => Some e
      | None, Some adt => Some adt
      | None, None => obj !! _KEY_END_DATE_TIME
      end ∧
    (∀ k, is_len_key k = false → k ≠ _KEY_DATE_TIME → k ≠ _KEY_END_DATE_TIME →
          obj' !! k = obj !! k).
Proof.
  intros Hop Hap Hstart Hend.
  unfold _decode_flattened_condition. cbv zeta. unfold_keys.
  destruct onset as [op|];
    [destruct (Hstart op eq_refl) as [start Hs]|clear Hstart];
    (destruct abatement as [ap|];
     [destruct (Hend ap eq_refl) as [e He]|clear Hend]);
    simpl in Hop, Hap |- *; rewrite ?Hs, ?He;
    destruct (obj !! "onsetDateTime") as [odt|] eqn:Hodt;
    destruct (obj !! "abatementDateTime") as [adt|] eqn:Hadt;
    steps; cbn [py_getitem]; steps; run_lists condition_lists_infers;
    (eexists; split_and!; [reflexivity|frame_tac Hfr..]).
Qed.

Lemma condition_decodes_witness :
  ∃ obj',
    _decode_flattened_condition obj_condition_both = (obj', inr tt) ∧
    obj' !! _KEY_DATE_TIME =
      match Some period_start_only ≫= (.!! "start"),
            obj_condition_both !! "onsetDateTime" with
      | Some start, _ => Some start
      | None, Some odt => Some odt
      | None, None => obj_condition_both !! _KEY_DATE_TIME
      end ∧
    obj' !! _KEY_END_DATE_TIME =
      match (None : option (gmap string value)) ≫= (.!! "end"),
            obj_condition_both !! "abatementDateTime" with
      | Some e, _ => Some e
      | None, Some adt => Some adt
      | None, None => obj_condition_both !! _KEY_END_DATE_TIME
      end ∧
    (∀ k, is_len_key k = false → k ≠ _KEY_DATE_TIME → k ≠ _KEY_END_DATE_TIME →
          obj' !! k = obj_condition_both !! k).
Proof.
  apply (condition_decodes obj_condition_both (Some period_start_only) None);
    [reflexivity|reflexivity| |done].
  intros op [= <-]. by eexists.
Defined.

(** * The banner of the test driver *)

Lemma length_str_rep c n : String.length (str_rep c n) = n.
Proof. induction n as [|n IH]; simpl; [done|by rewrite IH]. Qed.

Lemma length_str_mul c k : Z.of_nat (String.length (str_mul c k)) = Z.max 0 k.
Proof. unfold str_mul. rewrite length_str_rep. lia. Qed.

(** X24. The banner is a box of five lines of one width, except for a
    message of exactly 78 characters. For a message shorter than 78
    characters every line is 79 wide; for one of 79 characters or more
    every line is as wide as the message plus 4 when its length is odd,
    plus 5 when it is even. For a message of 78 characters the padding
    computed is negative: the four border lines are 79 wide and the
    line that carries the message is 80 wide. *)
Theorem banner_print_widths (msg : string) :
  let n := Z.of_nat (String.length msg) in
  widths (banner_print msg) =
    if decide (n = 78) then [79; 79; 80; 79; 79]
    else replicate 5 (if decide (n < 78) then 79
                      else if Z.even n then n + 5 else n + 4).
Proof.
  intros n. unfold banner_print, widths. cbv zeta. fold n.
  cbn [map]. rewrite !length_append, !Nat2Z.inj_add, !length_str_mul.
  fold n. change (Z.of_nat (String.length "*")) with 1.
  assert (Hn : 0 ≤ n) by apply Nat2Z.is_nonneg.
  assert (Hpar : ∃ h, n = 2 * h + (if Z.even n then 0 else 1)).
  { destruct (Z.even n) eqn:He.
    - apply Z.even_spec in He as [h Hh]. exists h. lia.
    - rewrite <- Z.negb_odd in He. apply negb_false_iff in He.
      apply Z.odd_spec in He as [h Hh]. exists h. lia. }
  destruct Hpar as [h Hh]. clearbody n. revert Hh.
  destruct (Z.even n), (Z.ltb_spec n 79), (Z.eqb_spec 0 (n mod 2));
    intros Hh; repeat case_decide; cbn [replicate];
    repeat (apply (f_equal2 cons)); try reflexivity;
    Z.div_mod_to_equations; lia.
Qed.
